(** * muxer: a tmux session launcher (src/muxer.py)

    A shallow embedding of [muxer.py] and the properties of its candidate
    discovery, selector, process runner and session reconciler.

    Conventions of the embedding.
    - A Python [str] is a [string]; each [ascii] stands for the code point
      of the same number (U+0000 to U+00FF).  Captured process output
      ([bytes]) is a [string] of bytes.
    - [None] is [None] of an [option]; a token of a command list is an
      [option string] because [Muxer.command] may be [None].
    - A [pathlib.PurePosixPath] is its root and its list of components.
    - The outside world (home directory, environment, file system, started
      processes, the fuzzy finder) is a record of oracles, [env].
    - Code that starts processes, logs or prints runs in the monad [M],
      which threads the list of events performed so far and propagates
      exceptions. *)

From stdpp Require Import base decidable option list sorting countable gmap strings.
From Stdlib Require Import Ascii NArith Permutation.

(* ================================================================== *)
(** * Python string primitives *)
(* ================================================================== *)

Module Str.

(** [str.isspace] on one character, for code points below 256:
    TAB..CR, FS..US, SPACE, NEL and NBSP. *)
Definition isspace (c : ascii) : bool :=
  let n := N_of_ascii c in
  ((9 <=? n) && (n <=? 13) || (28 <=? n) && (n <=? 32)
   || (n =? 133) || (n =? 160))%N.

(** The line boundaries of [str.splitlines] below 256: LF, VT, FF, CR,
    FS, GS, RS and NEL. *)
Definition islinebreak (c : ascii) : bool :=
  let n := N_of_ascii c in
  ((10 <=? n) && (n <=? 13) || (28 <=? n) && (n <=? 30) || (n =? 133))%N.

(** Truthiness of a [str]: non-empty. *)
Definition truthy (s : string) : bool :=
  match s with "" => false | String _ _ => true end.

(** [s.startswith(p)]. *)
Fixpoint startswith (p s : string) : bool :=
  match p with
  | "" => true
  | String a p' =>
      match s with
      | "" => false
      | String b s' => if ascii_dec a b then startswith p' s' else false
      end
  end.

(** [needle in s]: some suffix of [s] starts with [needle]. *)
Fixpoint contains (needle s : string) : bool :=
  startswith needle s ||
  match s with
  | "" => false
  | String _ s' => contains needle s'
  end.

(** [s.find(needle)], with [None] for Python's -1. *)
Fixpoint find (needle s : string) : option nat :=
  if startswith needle s then Some 0
  else match s with
       | "" => None
       | String _ s' => S <$> find needle s'
       end.

(** [s.endswith(p)]. *)
Definition endswith (p s : string) : bool :=
  startswith (String.rev p) (String.rev s).

(** [s[1:]] *)
Definition drop1 (s : string) : string :=
  match s with "" => "" | String _ s' => s' end.

(** [s[:-1]] *)
Fixpoint drop_last (s : string) : string :=
  match s with
  | "" => ""
  | String c s' => match s' with "" => "" | String _ _ => String c (drop_last s') end
  end.

(** Only whitespace, or nothing at all. *)
Fixpoint blank (s : string) : bool :=
  match s with
  | "" => true
  | String c s' => isspace c && blank s'
  end.

(** [s.lstrip()], [s.rstrip()] and [s.strip()]. *)
Fixpoint lstrip (s : string) : string :=
  match s with
  | "" => ""
  | String c s' => if isspace c then lstrip s' else s
  end.

Fixpoint rstrip (s : string) : string :=
  match s with
  | "" => ""
  | String c s' =>
      match rstrip s' with
      | "" => if isspace c then "" else String c ""
      | r => String c r
      end
  end.

Definition strip (s : string) : string := rstrip (lstrip s).

(** [sep.join(l)]. *)
Fixpoint join (sep : string) (l : list string) : string :=
  match l with
  | [] => ""
  | [x] => x
  | x :: l' => x +:+ sep +:+ join sep l'
  end.

Definition cons_word (w : string) (ws : list string) : list string :=
  if truthy w then w :: ws else ws.

(** [s.split()]: the maximal runs of non-whitespace characters.  The
    auxiliary function returns the word that starts at the head of the
    string (empty when the head is whitespace) and the words after it. *)
Fixpoint split_aux (s : string) : string * list string :=
  match s with
  | "" => ("", [])
  | String c s' =>
      let '(w, ws) := split_aux s' in
      if isspace c then ("", cons_word w ws) else (String c w, ws)
  end.

Definition split (s : string) : list string :=
  let '(w, ws) := split_aux s in cons_word w ws.

(** [s.split(sep)] for a one-character separator: empty fields are kept
    and the result is never empty. *)
Fixpoint split_on (sep : ascii) (s : string) : list string :=
  match s with
  | "" => [""]
  | String c s' =>
      match split_on sep s' with
      | [] => [""]
      | w :: ws => if ascii_dec c sep then "" :: w :: ws else String c w :: ws
      end
  end.

(** [s.splitlines()]: the auxiliary function returns the line in progress
    at the head of the string ([None] at the very end of the text, where no
    line is pending) and the lines after it.  CR LF is one boundary. *)
Fixpoint splitlines_aux (s : string) : option string * list string :=
  match s with
  | "" => (None, [])
  | String c s' =>
      let '(cur, ls) := splitlines_aux s' in
      if islinebreak c then
        if bool_decide (c = "013"%char) && startswith (String "010" "") s'
        then (cur, ls)
        else (Some "", option_list cur ++ ls)
      else (Some (String c (default "" cur)), ls)
  end.

Definition splitlines (s : string) : list string :=
  let '(cur, ls) := splitlines_aux s in option_list cur ++ ls.

(** [s.rfind(".")], with [None] for -1. *)
Fixpoint rfind_dot (s : string) : option nat :=
  match s with
  | "" => None
  | String c s' =>
      match rfind_dot s' with
      | Some i => Some (S i)
      | None => if ascii_dec c "."%char then Some 0 else None
      end
  end.

(** [s[n:]] *)
Fixpoint drop (n : nat) (s : string) : string :=
  match n, s with
  | S n', String _ s' => drop n' s'
  | _, _ => s
  end.

(** [s[:n]] *)
Fixpoint take (n : nat) (s : string) : string :=
  match n, s with
  | S n', String c s' => String c (take n' s')
  | _, _ => ""
  end.

End Str.

(* ================================================================== *)
(** * Exceptions and results *)
(* ================================================================== *)

(** The Python exceptions the program can meet. *)
Inductive exn :=
| FileNotFoundError
| NotADirectoryError
| IsADirectoryError
| PermissionError
| ValueError
| RuntimeError
| IndexError.

(** The outcome of a computation: a value, an exception that propagates, or
    [Unmodelled] where a library call leaves the fragment the embedding
    covers (a regular expression with operators, output that is not ASCII).
    No theorem below concludes anything from [Unmodelled]. *)
Inductive result (A : Type) :=
| Ok (a : A)
| Raise (e : exn)
| Unmodelled.
Arguments Ok {A} a.
Arguments Raise {A} e.
Arguments Unmodelled {A}.

#[global] Instance exn_eq_dec : EqDecision exn.
Proof. solve_decision. Defined.

#[global] Instance result_eq_dec `{EqDecision A} : EqDecision (result A).
Proof. solve_decision. Defined.

#[global] Instance result_ret : MRet result := λ A a, Ok a.
#[global] Instance result_bind : MBind result := λ A B k r,
  match r with
  | Ok a => k a
  | Raise e => Raise e
  | Unmodelled => Unmodelled
  end.

(** [[f(x) for x in l]] where [f] may raise: left to right, stopping at the
    first exception. *)
Fixpoint map_result {A B} (f : A → result B) (l : list A) : result (list B) :=
  match l with
  | [] => Ok []
  | x :: l' => y ← f x; ys ← map_result f l'; Ok (y :: ys)
  end.

(* ================================================================== *)
(** * pathlib *)
(* ================================================================== *)

(** A parsed POSIX path: its root (empty, one slash or two slashes) and its
    components.  Equality of paths is equality of both, as in pathlib. *)
Record Path := mkPath { root : string; parts : list string }.

#[global] Instance Path_eq_dec : EqDecision Path.
Proof. solve_decision. Defined.

#[global] Instance Path_countable : Countable Path :=
  inj_countable' (λ p, (root p, parts p)) (λ rp, mkPath rp.1 rp.2)
                 (λ p, match p with mkPath _ _ => eq_refl end).

Module Pathlib.

(** [posixpath.splitroot]: a path that starts with exactly two slashes
    keeps both as its root. *)
Definition splitroot (s : string) : string * string :=
  match s with
  | String "/" (String "/" (String "/" _ as r)) => ("/", String "/" r)
  | String "/" (String "/" r) => ("//", r)
  | String "/" r => ("/", r)
  | _ => ("", s)
  end.

(** A component is kept when it is neither empty nor a single dot. *)
Definition keep_part (x : string) : bool :=
  Str.truthy x && negb (bool_decide (x = ".")).

(** [Path(s)]. *)
Definition parse (s : string) : Path :=
  let '(r, rel) := splitroot s in
  mkPath r (filter (λ x, keep_part x) (Str.split_on "/" rel)).

(** [p.name]: the last component, empty when there is none. *)
Definition name (p : Path) : string := default "" (last (parts p)).

(** [p.stem] (Python 3.10 to 3.13): the name without its last suffix; a
    leading or a trailing dot starts no suffix. *)
Definition stem (p : Path) : string :=
  let n := name p in
  match Str.rfind_dot n with
  | Some i => if bool_decide (0 < i ∧ i < String.length n - 1)
              then Str.take i n else n
  | None => n
  end.

(** [str(p)]. *)
Definition to_str (p : Path) : string :=
  let s := root p +:+ Str.join "/" (parts p) in
  if Str.truthy s then s else ".".

(** [p / s] for a string [s]: an absolute [s] replaces [p]. *)
Definition truediv (p : Path) (s : string) : Path :=
  let q := parse s in
  if Str.truthy (root q) then q else mkPath (root p) (parts p ++ parts q).

(** The child of [p] called [n], as [glob] builds it. *)
Definition child (p : Path) (n : string) : Path :=
  mkPath (root p) (parts p ++ [n]).

(** [l[len(pre):]] when [pre] is a prefix of [l]. *)
Fixpoint strip_prefix (pre l : list string) : option (list string) :=
  match pre, l with
  | [], _ => Some l
  | a :: pre', b :: l' => if decide (a = b) then strip_prefix pre' l' else None
  | _ :: _, [] => None
  end.

(** [p.relative_to(other)]: [None] stands for the [ValueError] raised when
    [other] is not [p] or one of its ancestors. *)
Definition relative_to (p other : Path) : option Path :=
  if decide (root p = root other)
  then mkPath "" <$> strip_prefix (parts other) (parts p)
  else None.

End Pathlib.

Infix "//" := Pathlib.truediv (at level 40, left associativity).

(* ================================================================== *)
(** * The outside world *)
(* ================================================================== *)

(** What the program does to the outside world, in order. *)
Inductive event :=
| Launch (argv : list string)
    (** [subprocess.run(argv, capture_output=True)] *)
| LogInfo (msg : string)
    (** [logger.info(msg)] *)
| Fzf (items : list string) (prompt query : string)
    (** [iterfzf(items, prompt=prompt, cycle=True, multi=False, query=query,
        case_sensitive=False)] *)
| Echo (msg : string).
    (** [print(msg)] *)

#[global] Instance event_eq_dec : EqDecision event.
Proof. solve_decision. Defined.

(** The environment of one run.  The answers of started processes and of the
    fuzzy finder may depend on everything done before. *)
Record env := mkEnv {
  HOME : Path;
    (** [Path.home()] *)
  TMUX : option string;
    (** [os.environ.get("TMUX")] *)
  user_home : string → option Path;
    (** the home directory of a named user, for a leading [~user];
        [None] when it cannot be determined *)
  fs_file : Path → option string;
    (** the text of the readable regular file at a path *)
  fs_read_error : Path → exn;
    (** the exception the system raises when a path that holds no readable
        regular file is opened for reading: [FileNotFoundError] when
        nothing is there, [NotADirectoryError] when a parent such as
        [~/.ssh] is not a directory, [IsADirectoryError] for a directory,
        [PermissionError] when access is denied *)
  fs_is_dir : Path → bool;
    (** [Path.is_dir] *)
  fs_other : Path → bool;
    (** something that is neither a readable regular file nor a directory
        is at the path (a file that cannot be read, a special file) *)
  fs_listdir : Path → list string;
    (** the names of the entries of a directory, hidden ones included, in
        the order the system lists them; empty for anything else *)
  proc_run : list event → list string → result string;
    (** the captured stdout of a started process, or the exception raised
        when it cannot be started *)
  fzf_pick : list event → list string → string → string → option string
    (** the item picked in the fuzzy finder, [None] when cancelled *)
}.

(** Computations with effects: the events so far go in, the outcome and the
    events so far come out. *)
Definition M (A : Type) : Type := list event → result A * list event.

#[global] Instance M_ret : MRet M := λ A a w, (Ok a, w).
#[global] Instance M_bind : MBind M := λ A B k m w,
  match m w with
  | (Ok a, w') => k a w'
  | (Raise e, w') => (Raise e, w')
  | (Unmodelled, w') => (Unmodelled, w')
  end.

Definition lift {A} (r : result A) : M A := λ w, (r, w).
Definition emit (e : event) : M unit := λ w, (Ok tt, w ++ [e]).

(** Truthiness of a value that is a string or [None]. *)
Definition truthy (c : option string) : bool := from_option Str.truthy false c.

Section Program.

Variable E : env.

(** ** File system *)

(** [p.expanduser()]: a relative path whose first component starts with a
    tilde is re-rooted at a home directory; [RuntimeError] when that home
    cannot be determined. *)
Definition expanduser (p : Path) : result Path :=
  match root p, parts p with
  | "", first :: rest =>
      if Str.startswith "~" first then
        if bool_decide (first = "~")
        then Ok (mkPath (root (HOME E)) (parts (HOME E) ++ rest))
        else match user_home E (Str.drop1 first) with
             | Some h => Ok (mkPath (root h) (parts h ++ rest))
             | None => Raise RuntimeError
             end
      else Ok p
  | _, _ => Ok p
  end.

(** [p.exists()]: something is at the path, whatever it is. *)
Definition exists_ (p : Path) : bool :=
  bool_decide (is_Some (fs_file E p)) || fs_is_dir E p || fs_other E p.

(** [p.read_text()]: the text of a readable regular file; otherwise the
    exception of the failed open, as the system reports it. *)
Definition read_text (p : Path) : result string :=
  match fs_file E p with
  | Some text => Ok text
  | None => Raise (fs_read_error E p)
  end.

(** [p.glob("*")]: every entry of [p], hidden ones included. *)
Definition glob_star (p : Path) : list Path :=
  Pathlib.child p <$> fs_listdir E p.

(** ** Process runner *)

(** [subprocess.run(argv, capture_output=True).stdout]: an empty [argv]
    raises [IndexError] before anything is started. *)
Definition subprocess_run (argv : list string) : M string := λ w,
  match argv with
  | [] => (Raise IndexError, w)
  | _ :: _ => (proc_run E w argv, w ++ [Launch argv])
  end.

(** [[c.strip() for c in command if c]] *)
Definition clean_command (command : list (option string)) : list string :=
  (λ c, Str.strip (default "" c)) <$> filter (λ c, truthy c) command.

Definition log_and_run (command : list (option string)) : M string :=
  let command := clean_command command in
  _ ← emit (LogInfo ("`" +:+ Str.join " " command +:+ "`"));
  subprocess_run command.

(** ** Session existence *)

(** [bytes.decode()]: the identity on ASCII. *)
Definition decode (b : string) : result string :=
  if forallb (λ c, (N_of_ascii c <? 128)%N) (String.list_ascii_of_string b)
  then Ok b else Unmodelled.

(** The characters with a meaning of their own in a regular expression. *)
Definition re_special (c : ascii) : bool :=
  bool_decide (c ∈ String.list_ascii_of_string ".^$*+?{}[]\|()").

(** [re.search(pattern, text)] for a pattern of ordinary characters, which
    matches itself only: the position of the leftmost occurrence stands
    for the match object. *)
Definition re_search (pattern text : string) : result (option nat) :=
  if existsb re_special (String.list_ascii_of_string pattern)
  then Unmodelled
  else Ok (Str.find pattern text).

(** The pattern [f"\b{session}\b"]: the string is not a raw one, so each
    [\b] is the backspace character U+0008. *)
Definition session_pattern (session : string) : string :=
  String "008" (session +:+ String "008" "").

Definition tmux_has_session (session : string) : M (option nat) :=
  out ← subprocess_run (Str.split "tmux ls");
  text ← lift (decode out);
  lift (re_search (session_pattern session) text).

(** ** The session reconciler *)

(** [WITHIN_TMUX], used as a condition. *)
Definition WITHIN_TMUX : bool := truthy (TMUX E).

(** The class [Muxer]; [dir] holds the tokens [["-c", dir]] or nothing. *)
Record Muxer := mkMuxer {
  name : string;
  command : option string;
  dir : list (option string)
}.

(** [Muxer(name=..., command=..., dir=...)] *)
Definition Muxer_init (name : string) (command dir : option string) : Muxer :=
  mkMuxer name command (if truthy dir then [Some "-c"; dir] else []).

Definition attach (self : Muxer) : M unit :=
  _ ← log_and_run [Some "tmux"; Some "attach"; Some "-t"; Some (name self)];
  mret tt.

Definition switch (self : Muxer) : M unit :=
  _ ← log_and_run [Some "tmux"; Some "switch-client"; Some "-t"; Some (name self)];
  mret tt.

Definition new_window (self : Muxer) : M unit :=
  if WITHIN_TMUX then
    _ ← log_and_run ([Some "tmux"; Some "new-window"; Some "-n"; Some (name self)]
                      ++ dir self ++ [command self]);
    mret tt
  else
    found ← tmux_has_session (name self);
    _ ← (if negb (bool_decide (is_Some found)) then
           _ ← log_and_run ([Some "tmux"; Some "new-session"; Some "-A"; Some "-s";
                             Some (name self)] ++ dir self ++ [command self]);
           mret tt
         else mret tt);
    attach self.

Definition new_session (self : Muxer) : M unit :=
  found ← tmux_has_session (name self);
  _ ← (if negb (bool_decide (is_Some found)) then
         let flag := if WITHIN_TMUX then "-d" else "-A" in
         _ ← log_and_run ([Some "tmux"; Some "new-session"; Some flag; Some "-s";
                           Some (name self)] ++ dir self ++ [command self]);
         mret tt
       else mret tt);
  if WITHIN_TMUX then switch self else attach self.

(** ** Candidate sources *)

(** The built-in candidates, used when there is no rule file. *)
Definition default_candidates : list string :=
  ["~/notes"; "~/Syncthing"; "~/scratch"; "~/code/*"].

(** The rule lines: the lines of [~/.muxer.rc] when it exists. *)
Definition read_candidates : result (list string) :=
  muxerrc ← expanduser (Pathlib.parse "~/.muxer.rc");
  if exists_ muxerrc
  then text ← read_text muxerrc; Ok (Str.splitlines text)
  else Ok default_candidates.

(** One turn of the loop over the rule lines.  The two [if]s are
    independent: a line that starts with the exclusion marker is also
    taken as a wildcard or as a directory. *)
Definition scan_line (st : list Path * gset Path) (line : string)
  : result (list Path * gset Path) :=
  let '(directories, excludes) := st in
  excludes ←
    (if Str.startswith "!" line
     then p ← expanduser (Pathlib.parse (Str.drop1 line)); Ok ({[ p ]} ∪ excludes)
     else Ok excludes);
  directories ←
    (if Str.endswith "*" line
     then p ← expanduser (Pathlib.parse (Str.drop_last line));
          Ok (directories ++ glob_star p)
     else p ← expanduser (Pathlib.parse line); Ok (directories ++ [p]));
  Ok (directories, excludes).

Fixpoint scan_lines (st : list Path * gset Path) (lines : list string)
  : result (list Path * gset Path) :=
  match lines with
  | [] => Ok st
  | line :: lines' => st' ← scan_line st line; scan_lines st' lines'
  end.

(** The closure [valid] of [get_local_directories]. *)
Definition valid (query : string) (excludes : gset Path) (dir : Path) : bool :=
  Str.contains query (Pathlib.stem dir)
  && fs_is_dir E dir
  && negb (Str.startswith "." (Pathlib.stem dir))
  && bool_decide (dir ∉ excludes).

(** The closure [relative] of [get_local_directories]. *)
Definition relative (dir : Path) : result string :=
  match Pathlib.relative_to dir (HOME E) with
  | Some r => Ok (Pathlib.to_str r)
  | None => Raise ValueError
  end.

(** [sorted(l)] on strings: the ordering is the one of the code points. *)
Definition sorted (l : list string) : list string := merge_sort String.le l.

Definition get_local_directories (query : string) : result (list string) :=
  candidates ← read_candidates;
  '(directories, excludes) ← scan_lines ([], ∅) candidates;
  let valid_dirs := filter (λ d, valid query excludes d) directories in
  rel_to_home ← map_result relative valid_dirs;
  Ok (sorted rel_to_home).

(** The aliases of one line of the SSH configuration. *)
Definition host_aliases (line : string) : list string :=
  if Str.startswith "Host" line && negb (Str.contains "*" line)
  then tail (Str.split line) else [].

Definition get_ssh_hosts (query : string) : result (list string) :=
  text ← read_text (HOME E // ".ssh" // "config");
  let candidates := mjoin (host_aliases <$> Str.splitlines text) in
  let candidates :=
    if Str.truthy query
    then filter (λ c, Str.contains query c) candidates
    else candidates in
  Ok (sorted ((λ x, "ssh: " +:+ x) <$> candidates)).

(** ** Selector *)

Definition choose (listy : list string) (prompt query : string)
  : M (option string) :=
  match listy with
  | [] => mret None
  | [only] => mret (Some only)
  | multi => λ w,
      (Ok (fzf_pick E w multi prompt query), w ++ [Fzf multi prompt query])
  end.

(** ** Entry point *)

(** [main()] after argument parsing: [args_query] is the positional
    argument (empty by default) and [args_window] the switch [-w]. *)
Definition main (args_query : string) (args_window : bool) : M unit :=
  let query := if Str.truthy args_query then args_query else "" in
  hosts ← lift (get_ssh_hosts query);
  dirs ← lift (get_local_directories query);
  let candidates := hosts ++ dirs in
  let prompt := if args_window then "WINDOW > " else "SESSION > " in
  chosen ← choose candidates prompt ("'" +:+ query);
  if negb (truthy chosen) then emit (Echo "Nothing chosen")
  else
    let chosen := default "" chosen in
    let muxer :=
      if Str.startswith "ssh: " chosen then
        let chosen := Str.drop 5 chosen in
        Muxer_init ("SSH_" +:+ chosen) (Some (" ssh " +:+ chosen)) None
      else
        Muxer_init (Pathlib.name (HOME E // chosen)) None
                   (Some (Pathlib.to_str (HOME E // chosen))) in
    if args_window then new_window muxer else new_session muxer.

End Program.

(* ================================================================== *)
(** * The specification's vocabulary *)
(* ================================================================== *)

(** Notions the specification uses and the code does not define; the
    theorems compare the code with them. *)
Module Spec.

(** The command the process runner is specified to execute: the blank
    tokens removed, the others stripped. *)
Definition command (tokens : list (option string)) : list string :=
  Str.strip <$> filter (λ t, Str.blank t = false) (omap id tokens).

(** A call of the interactive selector. *)
Definition is_ui_call (e : event) : bool :=
  match e with Fzf _ _ _ => true | _ => false end.

(** The number of times the interactive selector was shown. *)
Definition ui_calls (w : list event) : nat :=
  length (filter (λ e, is_ui_call e = true) w).

(** A launch of [tmux new-session]. *)
Definition is_create (e : event) : bool :=
  match e with
  | Launch (a :: b :: _) => bool_decide (a = "tmux" ∧ b = "new-session")
  | _ => false
  end.

(** The number of create calls among the events. *)
Definition create_calls (w : list event) : nat :=
  length (filter (λ e, is_create e = true) w).

(** The names of the live sessions in the output of [tmux ls], whose
    lines read [name: N windows (created ...)]. *)
Definition live_sessions (ls_out : string) : list string :=
  (λ line, Str.take (default (String.length line) (Str.find ":" line)) line)
    <$> Str.splitlines ls_out.

(** A path is hidden when its final segment starts with a dot. *)
Definition hidden (p : Path) : bool := Str.startswith "." (Pathlib.name p).

(** The rule file, at its fixed place under the home directory. *)
Definition rule_file (E : env) : Path :=
  mkPath (root (HOME E)) (parts (HOME E) ++ [".muxer.rc"]).




(** A path in the tree of the home directory: the home directory or
    something below it. *)
Definition under_home (E : env) (p : Path) : Prop :=
  root p = root (HOME E) ∧ parts (HOME E) `prefix_of` parts p.



(** The representation of such a path relative to the home directory. *)
Definition home_relative (E : env) (p : Path) : string :=
  Pathlib.to_str (mkPath "" (drop (length (parts (HOME E))) (parts p))).



(** A component as a file system has them: not empty, no slash, not the
    single dot. *)
Definition clean (x : string) : Prop :=
  x ≠ "" ∧ x ≠ "." ∧ Str.contains "/" x = false.

(** An environment whose directory entries and user homes are made of
    such components. *)
Definition wf_env (E : env) : Prop :=
  (∀ p n, n ∈ fs_listdir E p → clean n) ∧
  (∀ u h, user_home E u = Some h → Forall clean (parts h)).

(** The shape of the paths a scan yields in such an environment: clean
    components, possibly behind the components of the home directory. *)
Definition tidy (E : env) (d : Path) : Prop :=
  ∃ pre suf, parts d = pre ++ suf ∧ Forall clean suf
             ∧ (pre = [] ∨ (root d = root (HOME E) ∧ pre = parts (HOME E))).

End Spec.

#[global] Instance under_home_dec E p : Decision (Spec.under_home E p).
Proof. unfold Spec.under_home. apply _. Defined.

(* ================================================================== *)
(** * A concrete environment *)
(* ================================================================== *)

(** A home directory [/home/u] with [notes], [my.proj] and [code], the
    latter holding [a], [b], [.git] and a file; and [/srv/www] outside of
    it.  The rule file, the SSH configuration, [$TMUX] and the output of
    [tmux ls] are parameters. *)
Module Demo.

Definition LF : string := String "010" "".

Definition home_u : Path := mkPath "/" ["home"; "u"].

Definition dirs : list Path :=
  [ home_u;
    mkPath "/" ["home"; "u"; "code"];
    mkPath "/" ["home"; "u"; "notes"];
    mkPath "/" ["home"; "u"; "my.proj"];
    mkPath "/" ["home"; "u"; "code"; "a"];
    mkPath "/" ["home"; "u"; "code"; "b"];
    mkPath "/" ["home"; "u"; "code"; ".git"];
    mkPath "/" ["srv"; "www"] ].

Definition listdir (p : Path) : list string :=
  if decide (p = mkPath "/" ["home"; "u"; "code"])
  then ["b"; ".git"; "a"; "README.md"] else [].

Definition world (rc ssh tmux : option string) (ls_out : string) : env :=
  {| HOME := home_u;
     TMUX := tmux;
     user_home := λ _, None;
     fs_file := λ p,
       if decide (p = mkPath "/" ["home"; "u"; ".muxer.rc"]) then rc
       else if decide (p = mkPath "/" ["home"; "u"; ".ssh"; "config"]) then ssh
       else None;
     fs_read_error := λ _, FileNotFoundError;
     fs_is_dir := λ p, bool_decide (p ∈ dirs);
     fs_other := λ _, false;
     fs_listdir := listdir;
     proc_run := λ _ argv,
       if decide (argv = ["tmux"; "ls"]) then Ok ls_out else Ok "";
     fzf_pick := λ _ items _ _, head items |}.

(** [$TMUX] inside a tmux client. *)
Definition tmux_socket : option string := Some "/tmp/tmux-1000/default,4242,0".

(** What [tmux ls] prints when the only session is [proj]. *)
Definition ls_proj : string :=
  "proj: 1 windows (created Tue Nov  3 10:13:00 2026)" +:+ LF.


Definition rc_outside : string := "~/notes" +:+ LF +:+ "/srv/www" +:+ LF.

(** A rule file that excludes [~/code/b] and scans [~/code]. *)
Definition rc_exclude : string :=
  "~/notes" +:+ LF +:+ "!~/code/b" +:+ LF +:+ "~/code/*" +:+ LF.

(** The events of two calls of [new_session] in a row for the directory
    [~/proj], while [tmux ls] lists the session [proj]. *)
Definition new_session_twice (tmux : option string) : list event :=
  let E := world None None tmux ls_proj in
  let muxer := Muxer_init "proj" None (Some "/home/u/proj") in
  (new_session E muxer (new_session E muxer []).2).2.

(** The SSH configuration of the specification's scenario. *)
Definition ssh_scenario : string :=
  "Host myserver" +:+ LF +:+ "  HostName 1.2.3.4" +:+ LF +:+ "Host *.internal" +:+ LF.

End Demo.

(* ================================================================== *)
(** * Vocabulary for the events and the targets *)
(* ================================================================== *)

Module Trace.

(** The commands launched among some events, in order. *)
Definition launches (evs : list event) : list (list string) :=
  omap (λ e, match e with Launch argv => Some argv | _ => None end) evs.

(** Every command launched is a call of [tmux]. *)
Definition only_tmux (evs : list event) : Prop :=
  Forall (λ argv, head argv = Some "tmux") (launches evs).

(** The line [log_and_run] logs for a command. *)
Definition logged (argv : list string) : event :=
  LogInfo ("`" +:+ Str.join " " argv +:+ "`").

(** The outcome of a launch whose output is dropped. *)
Definition dropped (r : result string) : result unit := _ ← r; Ok tt.

(** A string without any whitespace character. *)
Definition no_space (s : string) : Prop :=
  Forall (λ c, Str.isspace c = false) (String.list_ascii_of_string s).

End Trace.

Module Target.

(** The session a candidate stands for, as [main] derives it: for a
    candidate behind the SSH marker, the session [SSH_alias] running
    [ssh alias], without directory; for any other candidate, a session named
    after the final segment of the directory, started in that directory. *)
Definition muxer (E : env) (chosen : string) : Muxer :=
  if Str.startswith "ssh: " chosen
  then Muxer_init ("SSH_" +:+ Str.drop 5 chosen) (Some (" ssh " +:+ Str.drop 5 chosen)) None
  else Muxer_init (Pathlib.name (HOME E // chosen)) None
                  (Some (Pathlib.to_str (HOME E // chosen))).

(** The reconciliation [main] runs in window mode or in session mode. *)
Definition reconcile (E : env) (window : bool) (self : Muxer) : M unit :=
  if window then new_window E self else new_session E self.

(** The prompt of the selector in either mode. *)
Definition prompt (window : bool) : string :=
  if window then "WINDOW > " else "SESSION > ".

End Target.

(** Further concrete values. *)
Module Scenario.

(** A listing of [tmux ls] in which the name [proj] stands between two
    backspace characters. *)
Definition ls_backspaced : string :=
  String "008" ("proj" +:+ String "008" (": 1 windows" +:+ Demo.LF)).

(** A rule file with an empty line. *)
Definition rc_blank_line : string := "~/notes" +:+ Demo.LF +:+ Demo.LF +:+ "~/code/*".

(** The world of [Demo] in which the current directory [.] is a directory
    too, as it always is. *)
Definition world_cwd (rc ssh tmux : option string) (ls_out : string) : env :=
  let E := Demo.world rc ssh tmux ls_out in
  {| HOME := HOME E; TMUX := TMUX E; user_home := user_home E;
     fs_file := fs_file E; fs_read_error := fs_read_error E;
     fs_is_dir := λ p, bool_decide (p = mkPath "" []) || fs_is_dir E p;
     fs_other := fs_other E;
     fs_listdir := fs_listdir E; proc_run := proc_run E; fzf_pick := fzf_pick E |}.


End Scenario.

(* ================================================================== *)
(** * The primitives on examples *)
(* ================================================================== *)

Example splitlines_blank_line :
  Str.splitlines ("a" +:+ Demo.LF +:+ Demo.LF +:+ "b" +:+ Demo.LF) = ["a"; ""; "b"].
Proof. by vm_compute. Qed.

Example splitlines_crlf :
  Str.splitlines ("a" +:+ String "013" Demo.LF +:+ "b") = ["a"; "b"].
Proof. by vm_compute. Qed.

Example split_words : Str.split "  Host  a b " = ["Host"; "a"; "b"].
Proof. by vm_compute. Qed.

Example strip_both : Str.strip "  ssh  host " = "ssh  host".
Proof. by vm_compute. Qed.

Example parse_normalises :
  Pathlib.parse "//a/./b//c/" = mkPath "//" ["a"; "b"; "c"]
  ∧ Pathlib.parse "///a" = mkPath "/" ["a"]
  ∧ Pathlib.parse "" = mkPath "" []
  ∧ Pathlib.to_str (Pathlib.parse "") = ".".
Proof. by vm_compute. Qed.

Example stem_examples :
  Pathlib.stem (Pathlib.parse "~/my.proj") = "my"
  ∧ Pathlib.stem (Pathlib.parse "~/code/.git") = ".git"
  ∧ Pathlib.stem (Pathlib.parse "a.b.c") = "a.b"
  ∧ Pathlib.stem (Pathlib.parse "a.") = "a."
  ∧ Pathlib.stem (Pathlib.parse "..") = "..".
Proof. by vm_compute. Qed.

Example main_picks_host :
  main (Demo.world None (Some "Host a") None "") "a" false []
  = (Ok tt,
     [Fzf ["ssh: a"; "code/a"] "SESSION > " "'a";
      Launch ["tmux"; "ls"];
      LogInfo "`tmux new-session -A -s SSH_a ssh a`";
      Launch ["tmux"; "new-session"; "-A"; "-s"; "SSH_a"; "ssh a"];
      LogInfo "`tmux attach -t SSH_a`";
      Launch ["tmux"; "attach"; "-t"; "SSH_a"]]).
Proof. by vm_compute. Qed.

(* ================================================================== *)
(** * Facts about the string primitives *)
(* ================================================================== *)

Lemma append_cons a s t : String a s +:+ t = String a (s +:+ t).
Proof. reflexivity. Qed.

Lemma append_nil_l s : "" +:+ s = s.
Proof. reflexivity. Qed.

Lemma append_nil_r s : s +:+ "" = s.
Proof. induction s as [|a s IH]; [done|]. by rewrite append_cons, IH. Qed.

Lemma append_assoc s t u : (s +:+ t) +:+ u = s +:+ t +:+ u.
Proof. induction s as [|a s IH]; [done|]. by rewrite !append_cons, IH. Qed.

Lemma startswith_iff p s : Str.startswith p s = true ↔ ∃ r, s = p +:+ r.
Proof.
  revert s. induction p as [|a p IH]; intros s; simpl.
  - split; [intros _; by exists s|done].
  - destruct s as [|b s].
    + split; [done|]. intros [r Hr]. by rewrite append_cons in Hr.
    + destruct (ascii_dec a b) as [->|Hab].
      * rewrite IH. split; intros [r Hr]; exists r.
        -- by rewrite append_cons, Hr.
        -- rewrite append_cons in Hr. by simplify_eq.
      * split; [done|]. intros [r Hr]. rewrite append_cons in Hr. by simplify_eq.
Qed.

Lemma startswith_nil s : Str.startswith "" s = true.
Proof. done. Qed.

Lemma contains_iff n s : Str.contains n s = true ↔ ∃ a b, s = a +:+ n +:+ b.
Proof.
  induction s as [|c s IH].
  - simpl. rewrite orb_false_r, startswith_iff. split.
    + intros [r Hr]. by exists "", r.
    + intros ([|??] & b & Hb); [by exists b|by rewrite append_cons in Hb].
  - cbn [Str.contains]. rewrite orb_true_iff, IH, startswith_iff. split.
    + intros [[r Hr]|(a & b & Hab)].
      * by exists "", r.
      * exists (String c a), b. by rewrite append_cons, Hab.
    + intros ([|c' a] & b & Hab).
      * left. by exists b.
      * right. rewrite append_cons in Hab. simplify_eq. by exists a, b.
Qed.

Lemma contains_nil s : Str.contains "" s = true.
Proof. destruct s; done. Qed.

Lemma contains_append_l a s n :
  Str.contains n s = true → Str.contains n (a +:+ s) = true.
Proof.
  rewrite !contains_iff. intros (x & y & ->). exists (a +:+ x), y.
  by rewrite append_assoc.
Qed.

Lemma contains_append_r s b n :
  Str.contains n s = true → Str.contains n (s +:+ b) = true.
Proof.
  rewrite !contains_iff. intros (x & y & ->). exists x, (y +:+ b).
  by rewrite !append_assoc.
Qed.

Lemma find_is_Some n s : is_Some (Str.find n s) ↔ Str.contains n s = true.
Proof.
  induction s as [|c s IH]; simpl.
  - rewrite orb_false_r. destruct (Str.startswith n ""); [|by rewrite is_Some_alt].
    split; [done|by eexists].
  - destruct (Str.startswith n (String c s)); simpl; [split; [done|by eexists]|].
    by rewrite fmap_is_Some.
Qed.

(** ** Stripping *)

Lemma lstrip_blank s : Str.lstrip s = "" ↔ Str.blank s = true.
Proof.
  induction s as [|c s IH]; simpl; [done|].
  destruct (Str.isspace c); simpl; [done|]. split; done.
Qed.

Lemma rstrip_blank s : Str.rstrip s = "" ↔ Str.blank s = true.
Proof.
  induction s as [|c s IH]; simpl; [done|].
  destruct (Str.rstrip s) eqn:Hr.
  - destruct (Str.isspace c); simpl; [by rewrite <-IH|].
    split; done.
  - split; [done|]. intros [_ Hb]%andb_true_iff. apply IH in Hb. done.
Qed.

Lemma blank_lstrip s : Str.blank (Str.lstrip s) = Str.blank s.
Proof.
  induction s as [|c s IH]; simpl; [done|].
  destruct (Str.isspace c) eqn:Hc; simpl; [done|]. by rewrite Hc.
Qed.

Lemma strip_blank s : Str.strip s = "" ↔ Str.blank s = true.
Proof. unfold Str.strip. by rewrite rstrip_blank, blank_lstrip. Qed.

(** A string that is not blank starts, once left-stripped, with a character
    that is no whitespace. *)
Lemma lstrip_head s :
  Str.blank s = false →
  ∃ c r, Str.lstrip s = String c r ∧ Str.isspace c = false.
Proof.
  induction s as [|c s IH]; simpl; [done|].
  destruct (Str.isspace c) eqn:Hc; simpl; [done|]. intros _. by exists c, s.
Qed.

Lemma rstrip_head c s :
  Str.isspace c = false → ∃ r, Str.rstrip (String c s) = String c r.
Proof.
  intros Hc. simpl. destruct (Str.rstrip s); rewrite ?Hc; by eexists.
Qed.

Lemma rstrip_idemp s : Str.rstrip (Str.rstrip s) = Str.rstrip s.
Proof.
  induction s as [|c s IH]; simpl; [done|].
  destruct (Str.rstrip s) as [|c' r] eqn:Hr.
  - destruct (Str.isspace c) eqn:Hc; simpl; [done|]. by rewrite Hc.
  - cbn [Str.rstrip] in *. by rewrite IH.
Qed.

Lemma lstrip_rstrip_head c s :
  Str.isspace c = false → Str.lstrip (Str.rstrip (String c s)) = Str.rstrip (String c s).
Proof.
  intros Hc. destruct (rstrip_head c s Hc) as [r ->]. simpl. by rewrite Hc.
Qed.

(** A stripped string is left as it is by another [strip], and is not blank
    unless the string was. *)
Lemma strip_idemp s : Str.strip (Str.strip s) = Str.strip s.
Proof.
  unfold Str.strip. destruct (Str.blank s) eqn:Hb.
  - apply lstrip_blank in Hb. by rewrite Hb.
  - destruct (lstrip_head s Hb) as (c & r & -> & Hc).
    by rewrite lstrip_rstrip_head, rstrip_idemp.
Qed.

Lemma strip_not_blank s : Str.blank s = false → Str.blank (Str.strip s) = false.
Proof.
  intros Hb. unfold Str.strip.
  destruct (lstrip_head s Hb) as (c & r & -> & Hc).
  destruct (rstrip_head c r Hc) as [r' ->]. simpl. by rewrite Hc.
Qed.

(* ================================================================== *)
(** * The process runner *)
(* ================================================================== *)

(** What [log_and_run] does, for every command: one line logged, then the
    cleaned command launched once. *)
Lemma log_and_run_eq E command w :
  let argv := clean_command command in
  let w' := w ++ [LogInfo ("`" +:+ Str.join " " argv +:+ "`")] in
  log_and_run E command w =
    match argv with
    | [] => (Raise IndexError, w')
    | _ :: _ => (proc_run E w' argv, w' ++ [Launch argv])
    end.
Proof.
  unfold log_and_run, subprocess_run, mbind, M_bind, emit. simpl.
  by destruct (clean_command command).
Qed.

(** Without whitespace-only tokens the cleaned command is the specified one. *)
Lemma clean_command_spec command :
  (∀ t, Some t ∈ command → Str.blank t = true → t = "") →
  clean_command command = Spec.command command.
Proof.
  unfold clean_command, Spec.command. induction command as [|c command IH]; intros Hc; [done|].
  assert (clean_command command = Spec.command command) as IH'.
  { apply IH. intros t Ht. apply Hc. by right. }
  unfold clean_command, Spec.command in IH'.
  destruct c as [t|]; simpl; rewrite !filter_cons.
  - specialize (Hc t (list_elem_of_here _ _)).
    destruct t as [|a t]; simpl in *; [exact IH'|].
    destruct (Str.isspace a && Str.blank t) eqn:Hb; [by specialize (Hc eq_refl)|].
    simpl. by f_equal.
  - rewrite decide_False by (by intros []). exact IH'.
Qed.

(** The tokens of the specified command are stripped and not blank. *)
Lemma spec_command_tokens command :
  Forall (λ t, Str.blank t = false ∧ Str.strip t = t) (Spec.command command).
Proof.
  unfold Spec.command. apply Forall_fmap, Forall_forall.
  intros t [Hb _]%list_elem_of_filter. simpl. split.
  - by apply strip_not_blank.
  - apply strip_idemp.
Qed.

Lemma clean_command_cons c command :
  clean_command (c :: command) =
    if truthy c then Str.strip (default "" c) :: clean_command command
    else clean_command command.
Proof.
  unfold clean_command. rewrite filter_cons.
  by destruct (truthy c).
Qed.

(** A token that is not empty survives the cleaning. *)
Lemma clean_command_nonempty command t :
  Some t ∈ command → t ≠ "" → clean_command command ≠ [].
Proof.
  intros Hin Ht. induction command as [|c command IH]; [by apply elem_of_nil in Hin|].
  rewrite clean_command_cons. apply elem_of_cons in Hin as [<-|Hin].
  - destruct t; done.
  - destruct (truthy c); [done|by apply IH].
Qed.

(** C9 (as amended).  Given a list of tokens of which none is made of
    whitespace only and at least one is not empty, [log_and_run] logs the
    command line and launches, once, exactly the command the specification
    describes (blank tokens removed, the others stripped), in which no token
    is empty or blank; it returns what that launch yields, the raw captured
    stdout. *)
Theorem log_and_run_runs_specified_command E command w :
  (∀ t, Some t ∈ command → Str.blank t = true → t = "") →
  (∃ t, Some t ∈ command ∧ t ≠ "") →
  let argv := Spec.command command in
  let w' := w ++ [LogInfo ("`" +:+ Str.join " " argv +:+ "`")] in
  log_and_run E command w = (proc_run E w' argv, w' ++ [Launch argv])
  ∧ Forall (λ t, Str.blank t = false ∧ Str.strip t = t) argv.
Proof.
  intros Hws (t & Hin & Ht). simpl. split; [|apply spec_command_tokens].
  pose proof (clean_command_nonempty command t Hin Ht) as Hne.
  rewrite log_and_run_eq. simpl. rewrite <-(clean_command_spec command Hws).
  by destruct (clean_command command).
Qed.

Lemma log_and_run_runs_specified_command_witness :
  log_and_run (Demo.world None None None "") [Some "tmux"; None; Some ""; Some " ls "] []
  = (Ok "", [LogInfo "`tmux ls`"; Launch ["tmux"; "ls"]]).
Proof.
  refine (proj1 (log_and_run_runs_specified_command
                   (Demo.world None None None "")
                   [Some "tmux"; None; Some ""; Some " ls "] [] _ _)).
  - intros t Ht Hb.
    repeat (apply elem_of_cons in Ht as [Ht|Ht]; [by simplify_eq|]).
    by apply elem_of_nil in Ht.
  - exists "tmux". split; [apply (bool_decide_unpack _); by vm_compute|done].
Defined.

(** C9, as stated, fails: a token made of one space passes the filter (it
    is a non-empty string) and is stripped afterwards, so the command that is
    launched holds an empty token and is not the specified command. *)
Lemma log_and_run_passes_empty_token :
  let command := [Some "tmux"; Some " "; Some "ls"] in
  let w := (log_and_run (Demo.world None None None "") command []).2 in
  Spec.command command = ["tmux"; "ls"]
  ∧ (Launch (Spec.command command) ∉ w)
  ∧ (Launch ["tmux"; ""; "ls"] ∈ w).
Proof.
  split; [by vm_compute|].
  split; apply (bool_decide_unpack _); by vm_compute.
Qed.

(* ================================================================== *)
(** * The selector *)
(* ================================================================== *)

(** C6.  [choose] on no candidate returns no selection, on one candidate
    returns it, both without showing the interactive selector; on two or more
    candidates it shows the selector exactly once, with the candidates, the
    prompt and the query, and returns what was picked there. *)
Theorem choose_spec E (prompt query : string) (w : list event) :
  choose E [] prompt query w = (Ok None, w)
  ∧ (∀ x, choose E [x] prompt query w = (Ok (Some x), w))
  ∧ (∀ x y l,
       let multi := x :: y :: l in
       let w' := w ++ [Fzf multi prompt query] in
       choose E multi prompt query w = (Ok (fzf_pick E w multi prompt query), w')
       ∧ Spec.ui_calls w' = S (Spec.ui_calls w)).
Proof.
  repeat split.
  unfold Spec.ui_calls. rewrite filter_app, length_app. simpl. lia.
Qed.

(* ================================================================== *)
(** * The session reconciler *)
(* ================================================================== *)

(** What [tmux_has_session] computes when [tmux ls] prints ASCII text and
    the session name holds no operator of regular expressions: a search for
    the name between two backspace characters. *)
Lemma tmux_has_session_eq E session w out :
  proc_run E w ["tmux"; "ls"] = Ok out →
  decode out = Ok out →
  existsb re_special (String.list_ascii_of_string session) = false →
  tmux_has_session E session w
  = (Ok (Str.find (session_pattern session) out), w ++ [Launch ["tmux"; "ls"]]).
Proof.
  intros Hrun Hdec Hlit.
  unfold tmux_has_session, mbind, M_bind, subprocess_run, lift.
  change (Str.split "tmux ls") with ["tmux"; "ls"]. rewrite Hrun, Hdec.
  unfold re_search, session_pattern.
  replace (existsb re_special _) with false; [done|].
  symmetry. cbn [String.list_ascii_of_string existsb].
  replace (String.list_ascii_of_string (session +:+ String "008" ""))
    with (String.list_ascii_of_string session ++ ["008"%char]).
  - rewrite existsb_app, Hlit. by vm_compute.
  - clear. induction session as [|a s IH]; [done|].
    rewrite append_cons. simpl. by rewrite IH.
Qed.

(** Hence a session is reported only when the listing holds its name between
    two backspace characters; a listing without backspace reports nothing. *)
Lemma tmux_has_session_needs_backspace E session w out :
  proc_run E w ["tmux"; "ls"] = Ok out →
  decode out = Ok out →
  existsb re_special (String.list_ascii_of_string session) = false →
  Str.contains (String "008" "") out = false →
  tmux_has_session E session w = (Ok None, w ++ [Launch ["tmux"; "ls"]]).
Proof.
  intros Hrun Hdec Hlit Hbs. rewrite (tmux_has_session_eq E session w out) by done.
  f_equal. f_equal. apply eq_None_not_Some. rewrite find_is_Some.
  intros Hc. rewrite <-not_true_iff_false in Hbs. apply Hbs.
  apply contains_iff in Hc as (a & b & ->). apply contains_append_l.
  apply contains_iff. by exists "", ((session +:+ String "008" "") +:+ b).
Qed.

(** C1 fails on the code.  [tmux ls] lists one live session, [proj]; asked
    for [proj], [tmux_has_session] finds nothing. *)
Theorem tmux_has_session_misses_live_session :
  let E := Demo.world None None None Demo.ls_proj in
  "proj" ∈ Spec.live_sessions Demo.ls_proj
  ∧ tmux_has_session E "proj" [] = (Ok None, [Launch ["tmux"; "ls"]]).
Proof. split; [apply (bool_decide_unpack _)|]; by vm_compute. Qed.

(** The effect of [log_and_run] on the events, whatever the launch yields. *)
Lemma log_and_run_events E command w :
  (log_and_run E command w).2 =
    w ++ LogInfo ("`" +:+ Str.join " " (clean_command command) +:+ "`")
      :: match clean_command command with
         | [] => []
         | argv => [Launch argv]
         end.
Proof.
  rewrite log_and_run_eq. simpl.
  destruct (clean_command command); simpl; by rewrite <-?app_assoc.
Qed.

Lemma create_calls_app w1 w2 :
  Spec.create_calls (w1 ++ w2) = Spec.create_calls w1 + Spec.create_calls w2.
Proof. unfold Spec.create_calls. by rewrite filter_app, length_app. Qed.

(** Attaching and switching are no create calls. *)
Lemma attach_events E self w :
  Spec.create_calls (attach E self w).2 = Spec.create_calls w.
Proof.
  unfold attach, mbind, M_bind.
  assert (Spec.create_calls
            (log_and_run E [Some "tmux"; Some "attach"; Some "-t"; Some (name self)] w).2
          = Spec.create_calls w) as Hlog.
  { rewrite log_and_run_events, create_calls_app, !clean_command_cons. simpl.
    change (Str.strip "tmux") with "tmux". change (Str.strip "attach") with "attach".
    unfold Spec.create_calls at 2. rewrite !filter_cons. simpl. lia. }
  destruct (log_and_run E _ w) as [[?|?|] ?]; exact Hlog.
Qed.

Lemma switch_events E self w :
  Spec.create_calls (switch E self w).2 = Spec.create_calls w.
Proof.
  unfold switch, mbind, M_bind.
  assert (Spec.create_calls
            (log_and_run E [Some "tmux"; Some "switch-client"; Some "-t"; Some (name self)] w).2
          = Spec.create_calls w) as Hlog.
  { rewrite log_and_run_events, create_calls_app, !clean_command_cons. simpl.
    change (Str.strip "tmux") with "tmux". change (Str.strip "switch-client") with "switch-client".
    unfold Spec.create_calls at 2. rewrite !filter_cons. simpl. lia. }
  destruct (log_and_run E _ w) as [[?|?|] ?]; exact Hlog.
Qed.

(** When the session is found, [new_session] makes no create call: the
    branch that creates is guarded by the existence check. *)
Lemma new_session_no_create_when_found E self w w' i :
  tmux_has_session E (name self) w = (Ok (Some i), w') →
  Spec.create_calls (new_session E self w).2 = Spec.create_calls w'.
Proof.
  intros Hfound. unfold new_session, mbind at 1, M_bind at 1. rewrite Hfound. simpl.
  unfold mbind, M_bind, mret, M_ret.
  destruct (WITHIN_TMUX E); [apply switch_events|apply attach_events].
Qed.

(** C2 fails on the code, through the defect of C1.  [tmux ls] lists the
    live session [proj]; two calls of [new_session] for [proj] in a row make
    two create calls, outside of a tmux client (flag [-A]) as well as inside
    of one (flag [-d]). *)
Theorem new_session_creates_existing_session :
  "proj" ∈ Spec.live_sessions Demo.ls_proj
  ∧ Spec.create_calls (Demo.new_session_twice None) = 2
  ∧ Spec.create_calls (Demo.new_session_twice Demo.tmux_socket) = 2
  ∧ Launch ["tmux"; "new-session"; "-A"; "-s"; "proj"; "-c"; "/home/u/proj"]
      ∈ Demo.new_session_twice None
  ∧ Launch ["tmux"; "new-session"; "-d"; "-s"; "proj"; "-c"; "/home/u/proj"]
      ∈ Demo.new_session_twice Demo.tmux_socket.
Proof.
  split; [apply (bool_decide_unpack _); by vm_compute|].
  split; [by vm_compute|]. split; [by vm_compute|].
  split; apply (bool_decide_unpack _); by vm_compute.
Qed.

(* ================================================================== *)
(** * Sorting *)
(* ================================================================== *)

Lemma sorted_Sorted l : Sorted String.le (sorted l).
Proof. apply (Sorted_merge_sort String.le). Qed.

Lemma sorted_Permutation l : sorted l ≡ₚ l.
Proof. apply merge_sort_Permutation. Qed.

Lemma elem_of_sorted x l : x ∈ sorted l ↔ x ∈ l.
Proof. by rewrite sorted_Permutation. Qed.

(** [sorted] is the only way to sort: any sorted rearrangement of [l] is
    [sorted l]. *)
Lemma sorted_unique l k : Sorted String.le k → k ≡ₚ l → k = sorted l.
Proof.
  intros Hk Hp. apply (Sorted_unique String.le); [done|apply sorted_Sorted|].
  by rewrite sorted_Permutation.
Qed.

(* ================================================================== *)
(** * SSH host discovery *)
(* ================================================================== *)

(** The words of [split] are pieces of the string. *)
Lemma split_aux_pieces s :
  (∃ r, s = (Str.split_aux s).1 +:+ r)
  ∧ ∀ t, t ∈ (Str.split_aux s).2 → ∃ a b, s = a +:+ t +:+ b.
Proof.
  induction s as [|c s [[r Hr] IH]]; simpl.
  - split; [by exists ""|]. by intros t ?%elem_of_nil.
  - destruct (Str.split_aux s) as [w ws]. simpl in *.
    assert (∀ t, t ∈ Str.cons_word w ws → ∃ a b, String c s = a +:+ t +:+ b) as Hcw.
    { intros t Ht. unfold Str.cons_word in Ht.
      assert (t = w ∨ t ∈ ws) as [->|Ht'].
      { destruct (Str.truthy w); [by apply elem_of_cons in Ht|by right]. }
      - exists (String c ""), r. by rewrite append_cons, append_nil_l, <-Hr.
      - destruct (IH t Ht') as (a & b & Hab). exists (String c a), b.
        by rewrite append_cons, <-Hab. }
    destruct (Str.isspace c); simpl.
    + split; [by exists (String c s)|done].
    + split; [exists r; by rewrite append_cons, <-Hr|].
      intros t Ht. destruct (IH t Ht) as (a & b & Hab). exists (String c a), b.
      by rewrite append_cons, <-Hab.
Qed.

Lemma split_pieces s t : t ∈ Str.split s → ∃ a b, s = a +:+ t +:+ b.
Proof.
  unfold Str.split. destruct (split_aux_pieces s) as [[r Hr] Hws].
  destruct (Str.split_aux s) as [w ws]. simpl in *. unfold Str.cons_word.
  destruct (Str.truthy w); [|by apply Hws].
  intros [->|Ht]%elem_of_cons; [|by apply Hws]. by exists "", r.
Qed.

Lemma elem_of_tail {A} (x : A) l : x ∈ tail l → x ∈ l.
Proof. destruct l; [done|]. by right. Qed.

(** A word of a line without asterisk holds no asterisk. *)
Lemma split_no_wildcard line t :
  Str.contains "*" line = false → t ∈ Str.split line → Str.contains "*" t = false.
Proof.
  intros Hline (a & b & ->)%split_pieces. apply not_true_iff_false.
  intros Ht. apply not_true_iff_false in Hline. apply Hline.
  by apply contains_append_l, contains_append_r.
Qed.

(** The aliases a configuration text contributes, characterised. *)
Lemma elem_of_host_aliases alias lines :
  alias ∈ mjoin (host_aliases <$> lines) ↔
  ∃ line, line ∈ lines ∧ Str.startswith "Host" line = true
          ∧ Str.contains "*" line = false ∧ alias ∈ tail (Str.split line).
Proof.
  rewrite list_elem_of_join. split.
  - intros (l & Hal & (line & -> & Hline)%list_elem_of_fmap). exists line.
    unfold host_aliases in Hal.
    destruct (Str.startswith "Host" line); [|by apply elem_of_nil in Hal].
    destruct (Str.contains "*" line); [by apply elem_of_nil in Hal|done].
  - intros (line & Hline & Hh & Hw & Hal). exists (host_aliases line). split.
    + unfold host_aliases. by rewrite Hh, Hw.
    + by apply list_elem_of_fmap_2.
Qed.

(** What [get_ssh_hosts] returns when the configuration file is there. *)
Lemma get_ssh_hosts_eq E query text :
  fs_file E (HOME E // ".ssh" // "config") = Some text →
  get_ssh_hosts E query =
    Ok (sorted ((λ x, "ssh: " +:+ x) <$>
                filter (λ c, Str.contains query c)
                       (mjoin (host_aliases <$> Str.splitlines text)))).
Proof.
  intros Hfile. unfold get_ssh_hosts, read_text. rewrite Hfile. simpl.
  destruct query as [|a q]; [|done]. simpl. do 3 f_equal.
  symmetry. induction (mjoin _) as [|x l IH]; [done|].
  rewrite filter_cons, decide_True, IH; [done|]. by rewrite contains_nil.
Qed.

(** C4.  When the SSH configuration holds [text], every entry that
    [get_ssh_hosts] returns is the marker ["ssh: "] followed by an alias
    that is a word (not the first) of a line that starts with [Host] and
    holds no asterisk, so that no alias holds an asterisk and none comes from
    a wildcard line; the entries are sorted.  For the configuration of the
    scenario and the empty query the result is exactly [["ssh: myserver"]]. *)
Theorem get_ssh_hosts_spec E query text :
  fs_file E (HOME E // ".ssh" // "config") = Some text →
  ∃ out, get_ssh_hosts E query = Ok out
    ∧ (∀ entry, entry ∈ out →
         ∃ line alias,
           entry = "ssh: " +:+ alias
           ∧ line ∈ Str.splitlines text
           ∧ Str.startswith "Host" line = true
           ∧ Str.contains "*" line = false
           ∧ alias ∈ tail (Str.split line)
           ∧ Str.contains "*" alias = false
           ∧ Str.contains query alias = true)
    ∧ Forall (λ entry, Str.startswith "ssh: " entry = true) out
    ∧ Sorted String.le out
    ∧ (text = Demo.ssh_scenario → query = "" → out = ["ssh: myserver"]).
Proof.
  intros Hfile. eexists. split; [by apply get_ssh_hosts_eq|].
  assert (∀ entry,
    entry ∈ sorted ((λ x, "ssh: " +:+ x) <$>
                    filter (λ c, Str.contains query c)
                           (mjoin (host_aliases <$> Str.splitlines text))) →
    ∃ line alias, entry = "ssh: " +:+ alias ∧ line ∈ Str.splitlines text
      ∧ Str.startswith "Host" line = true ∧ Str.contains "*" line = false
      ∧ alias ∈ tail (Str.split line) ∧ Str.contains "*" alias = false
      ∧ Str.contains query alias = true) as Hprov.
  { intros entry (alias & -> & [Hq Hal]%list_elem_of_filter)%elem_of_sorted%list_elem_of_fmap.
    apply elem_of_host_aliases in Hal as (line & Hline & Hh & Hw & Hal).
    exists line, alias. repeat split; try done.
    - eapply split_no_wildcard; [done|]. by apply elem_of_tail.
    - by apply Is_true_true. }
  repeat split.
  - exact Hprov.
  - apply Forall_forall. intros entry (_ & alias & -> & _)%Hprov.
    apply startswith_iff. by exists alias.
  - apply sorted_Sorted.
  - intros -> ->. by vm_compute.
Qed.

Lemma get_ssh_hosts_spec_witness :
  ∃ out, get_ssh_hosts (Demo.world None (Some Demo.ssh_scenario) None "") "" = Ok out
         ∧ out = ["ssh: myserver"].
Proof.
  destruct (get_ssh_hosts_spec (Demo.world None (Some Demo.ssh_scenario) None "") ""
              Demo.ssh_scenario eq_refl) as (out & Hout & _ & _ & _ & Hscenario).
  exists out. split; [exact Hout|]. by apply Hscenario.
Defined.

(** C10.  A line of the SSH configuration that starts with the four
    characters [Host] and holds no asterisk is taken for a host declaration,
    whatever follows these characters: each of its words after the first that
    contains the query is returned behind the marker.  A line [HostName
    1.2.3.4] at the left margin thus yields the entry [ssh: 1.2.3.4]. *)
Theorem host_prefix_line_contributes E query text line alias :
  fs_file E (HOME E // ".ssh" // "config") = Some text →
  line ∈ Str.splitlines text →
  Str.startswith "Host" line = true →
  Str.contains "*" line = false →
  alias ∈ tail (Str.split line) →
  Str.contains query alias = true →
  ∃ out, get_ssh_hosts E query = Ok out ∧ "ssh: " +:+ alias ∈ out.
Proof.
  intros Hfile Hline Hh Hw Hal Hq. eexists. split; [by apply get_ssh_hosts_eq|].
  apply elem_of_sorted, list_elem_of_fmap_2, list_elem_of_filter.
  split; [by apply Is_true_true|]. apply elem_of_host_aliases. by exists line.
Qed.

Lemma host_prefix_line_contributes_witness :
  ∃ out,
    get_ssh_hosts
      (Demo.world None (Some ("HostName 1.2.3.4" +:+ Demo.LF)) None "") "" = Ok out
    ∧ "ssh: 1.2.3.4" ∈ out.
Proof.
  apply (host_prefix_line_contributes
           (Demo.world None (Some ("HostName 1.2.3.4" +:+ Demo.LF)) None "") ""
           ("HostName 1.2.3.4" +:+ Demo.LF) "HostName 1.2.3.4" "1.2.3.4").
  - reflexivity.
  - apply (bool_decide_unpack _). by vm_compute.
  - reflexivity.
  - reflexivity.
  - apply (bool_decide_unpack _). by vm_compute.
  - reflexivity.
Defined.

(* ================================================================== *)
(** * Paths *)
(* ================================================================== *)

Lemma strip_prefix_Some pre l r :
  Pathlib.strip_prefix pre l = Some r ↔ l = pre ++ r.
Proof.
  revert l. induction pre as [|a pre IH]; intros l; simpl.
  - split; [by intros [= ->]|by intros ->].
  - destruct l as [|b l]; [done|]. destruct (decide (a = b)) as [->|Hab].
    + rewrite IH. split; [by intros ->|by intros [= ->]].
    + split; [done|]. intros [= ??]. done.
Qed.

Lemma relative_to_Some p other r :
  Pathlib.relative_to p other = Some r ↔
  root p = root other ∧ parts p = parts other ++ parts r ∧ root r = "".
Proof.
  unfold Pathlib.relative_to. destruct (decide (root p = root other)) as [Hr|Hr].
  - rewrite fmap_Some. split.
    + intros (l & Hl%strip_prefix_Some & ->). done.
    + intros (_ & Hl & Hroot). exists (parts r). split; [by apply strip_prefix_Some|].
      destruct r; simpl in *. by subst.
  - split; [done|]. by intros [? _].
Qed.

(** [relative] succeeds exactly on the paths under the home directory, with
    the home-relative representation. *)
Lemma relative_under_home E p :
  Spec.under_home E p → relative E p = Ok (Spec.home_relative E p).
Proof.
  intros [Hroot [rest Hrest]]. unfold relative, Spec.home_relative.
  destruct (Pathlib.relative_to p (HOME E)) as [r|] eqn:Hrel.
  - apply relative_to_Some in Hrel as (_ & Hparts & Hr).
    rewrite Hparts, drop_app_length. destruct r; simpl in *. by subst.
  - assert (Pathlib.relative_to p (HOME E) = Some (mkPath "" rest)) as Hrel'
      by (by apply relative_to_Some).
    congruence.
Qed.

Lemma relative_outside_home E p :
  ¬ Spec.under_home E p → relative E p = Raise ValueError.
Proof.
  intros Hout. unfold relative.
  destruct (Pathlib.relative_to p (HOME E)) as [r|] eqn:Hrel; [|done].
  apply relative_to_Some in Hrel as (Hroot & Hparts & _).
  destruct Hout. split; [done|]. by exists (parts r).
Qed.

Lemma map_relative_under_home E l :
  Forall (Spec.under_home E) l →
  map_result (relative E) l = Ok (Spec.home_relative E <$> l).
Proof.
  induction 1 as [|p l Hp _ IH]; [done|].
  simpl. rewrite (relative_under_home E p Hp). simpl. by rewrite IH.
Qed.

Lemma map_relative_outside_home E l :
  Exists (λ p, ¬ Spec.under_home E p) l →
  map_result (relative E) l = Raise ValueError.
Proof.
  induction 1 as [p l Hp|p l _ IH]; simpl.
  - by rewrite (relative_outside_home E p Hp).
  - destruct (decide (Spec.under_home E p)) as [Hp|Hp].
    + rewrite (relative_under_home E p Hp). simpl. by rewrite IH.
    + by rewrite (relative_outside_home E p Hp).
Qed.

(** The stem starts with a dot exactly when the final segment does. *)
Lemma startswith_dot_take i n :
  0 < i → Str.startswith "." (Str.take i n) = Str.startswith "." n.
Proof. intros Hi. destruct i; [lia|]. by destruct n. Qed.

Lemma stem_hidden p :
  Str.startswith "." (Pathlib.stem p) = Spec.hidden p.
Proof.
  unfold Pathlib.stem, Spec.hidden. destruct (Str.rfind_dot _) as [i|]; [|done].
  case_bool_decide as Hi; [|done]. apply startswith_dot_take. lia.
Qed.

(* ================================================================== *)
(** * Directory discovery *)
(* ================================================================== *)

Lemma expanduser_rule_file E :
  expanduser E (Pathlib.parse "~/.muxer.rc") = Ok (Spec.rule_file E).
Proof. done. Qed.


(** The rule lines: those of the rule file, or the built-in ones. *)
Lemma read_candidates_file E text :
  fs_file E (Spec.rule_file E) = Some text →
  read_candidates E = Ok (Str.splitlines text).
Proof.
  intros Hfile. unfold read_candidates. rewrite expanduser_rule_file. simpl.
  unfold exists_, read_text. rewrite Hfile. done.
Qed.


(** The shape of [get_local_directories] once the rules are scanned. *)
Lemma get_local_directories_eq E query candidates directories excludes :
  read_candidates E = Ok candidates →
  scan_lines E ([], ∅) candidates = Ok (directories, excludes) →
  get_local_directories E query =
    (rel_to_home ← map_result (relative E)
                     (filter (λ d, valid E query excludes d) directories);
     Ok (sorted rel_to_home)).
Proof.
  intros Hread Hscan. unfold get_local_directories. rewrite Hread. simpl.
  rewrite Hscan. done.
Qed.






(** C8.  When the rules are read and scanned and some directory that passes
    the filter lies outside the tree of the home directory,
    [get_local_directories] raises [ValueError]: it returns no list, with the
    entry skipped or otherwise. *)
Theorem outside_home_raises E query candidates directories excludes d :
  read_candidates E = Ok candidates →
  scan_lines E ([], ∅) candidates = Ok (directories, excludes) →
  d ∈ directories →
  valid E query excludes d = true →
  ¬ Spec.under_home E d →
  get_local_directories E query = Raise ValueError
  ∧ ∀ out, get_local_directories E query ≠ Ok out.
Proof.
  intros Hread Hscan Hd Hvalid Hout.
  assert (get_local_directories E query = Raise ValueError) as ->; [|done].
  rewrite (get_local_directories_eq E query _ _ _ Hread Hscan).
  rewrite map_relative_outside_home; [done|].
  apply Exists_exists. exists d. split; [|done].
  apply list_elem_of_filter. split; [by apply Is_true_true|done].
Qed.

Lemma outside_home_raises_witness :
  get_local_directories (Demo.world (Some Demo.rc_outside) None None "") ""
  = Raise ValueError.
Proof.
  refine (proj1 (outside_home_raises
                   (Demo.world (Some Demo.rc_outside) None None "") ""
                   ["~/notes"; "/srv/www"]
                   [mkPath "/" ["home"; "u"; "notes"]; mkPath "/" ["srv"; "www"]] ∅
                   (mkPath "/" ["srv"; "www"]) _ _ _ _ _)).
  - reflexivity.
  - by vm_compute.
  - apply (bool_decide_unpack _). by vm_compute.
  - by vm_compute.
  - apply (bool_decide_unpack _). by vm_compute.
Defined.








(* ================================================================== *)
(** * Exclusions *)
(* ================================================================== *)

(** What one rule line does to the directories and the exclusions. *)
Lemma scan_line_Ok E directories excludes line directories' excludes' :
  scan_line E (directories, excludes) line = Ok (directories', excludes') →
  (if Str.startswith "!" line
   then ∃ p, expanduser E (Pathlib.parse (Str.drop1 line)) = Ok p
             ∧ excludes' = {[ p ]} ∪ excludes
   else excludes' = excludes)
  ∧ ∃ p added,
      directories' = directories ++ added
      ∧ (if Str.endswith "*" line
         then expanduser E (Pathlib.parse (Str.drop_last line)) = Ok p
              ∧ added = glob_star E p
         else expanduser E (Pathlib.parse line) = Ok p ∧ added = [p]).
Proof.
  unfold scan_line. intros Hscan.
  destruct (Str.startswith "!" line).
  - destruct (expanduser E (Pathlib.parse (Str.drop1 line))) as [p| |]; [|done..].
    simpl in Hscan. destruct (Str.endswith "*" line).
    + destruct (expanduser E (Pathlib.parse (Str.drop_last line))) as [q| |]; [|done..].
      simpl in Hscan. injection Hscan as <- <-. split; [by exists p|]. by exists q, (glob_star E q).
    + destruct (expanduser E (Pathlib.parse line)) as [q| |]; [|done..].
      simpl in Hscan. injection Hscan as <- <-. split; [by exists p|]. by exists q, [q].
  - simpl in Hscan. destruct (Str.endswith "*" line).
    + destruct (expanduser E (Pathlib.parse (Str.drop_last line))) as [q| |]; [|done..].
      simpl in Hscan. injection Hscan as <- <-. split; [done|]. by exists q, (glob_star E q).
    + destruct (expanduser E (Pathlib.parse line)) as [q| |]; [|done..].
      simpl in Hscan. injection Hscan as <- <-. split; [done|]. by exists q, [q].
Qed.

(** Exclusions are never removed, and every exclusion line adds its path. *)
Lemma scan_lines_excludes E lines directories excludes directories' excludes' :
  scan_lines E (directories, excludes) lines = Ok (directories', excludes') →
  excludes ⊆ excludes'
  ∧ ∀ line p, line ∈ lines → Str.startswith "!" line = true →
      expanduser E (Pathlib.parse (Str.drop1 line)) = Ok p → p ∈ excludes'.
Proof.
  revert directories excludes.
  induction lines as [|l lines IH]; intros directories excludes Hscan.
  - injection Hscan as <- <-. split; [done|]. by intros ?? ?%elem_of_nil.
  - cbn [scan_lines] in Hscan.
    destruct (scan_line E (directories, excludes) l) as [[ds es]| |] eqn:Hl; [|done..].
    simpl in Hscan. destruct (IH _ _ Hscan) as [Hsub Hin].
    apply scan_line_Ok in Hl as [Hes _]. split.
    + destruct (Str.startswith "!" l); [|by subst].
      destruct Hes as (p & _ & ->). intros x Hx. apply Hsub, elem_of_union. by right.
    + intros line p [->|Hline]%elem_of_cons Hbang Hp; [|by eapply Hin].
      rewrite Hbang in Hes. destruct Hes as (p' & Hp' & ->).
      rewrite Hp in Hp'. injection Hp' as <-.
      apply Hsub, elem_of_union. left. by apply elem_of_singleton.
Qed.

(** A successful run of [get_local_directories], taken apart. *)
Lemma get_local_directories_Ok E query out :
  get_local_directories E query = Ok out →
  ∃ candidates directories excludes,
    read_candidates E = Ok candidates
    ∧ scan_lines E ([], ∅) candidates = Ok (directories, excludes)
    ∧ Forall (Spec.under_home E) (filter (λ d, valid E query excludes d) directories)
    ∧ out = sorted (Spec.home_relative E <$>
                    filter (λ d, valid E query excludes d) directories).
Proof.
  unfold get_local_directories. intros Hout.
  destruct (read_candidates E) as [candidates| |]; [|done..]. simpl in Hout.
  destruct (scan_lines E ([], ∅) candidates) as [[directories excludes]| |] eqn:Hscan;
    [|done..]. simpl in Hout.
  exists candidates, directories, excludes. split; [done|]. split; [done|].
  destruct (decide (Forall (Spec.under_home E)
                      (filter (λ d, valid E query excludes d) directories))) as [Hall|Hex].
  - split; [done|]. rewrite (map_relative_under_home E _ Hall) in Hout. simpl in Hout.
    by injection Hout as <-.
  - apply not_Forall_Exists in Hex; [|apply _].
    by rewrite (map_relative_outside_home E _ Hex) in Hout.
Qed.

(** ** Home-relative names are faithful *)

Lemma slash_free_cons c x :
  Str.contains "/" (String c x) = false ↔ c ≠ "/"%char ∧ Str.contains "/" x = false.
Proof.
  cbn [Str.contains Str.startswith]. destruct (ascii_dec "/" c) as [<-|Hc]; simpl.
  - split; [done|]. by intros [? _].
  - split; [by intros ->|]. by intros [_ ->].
Qed.

(** Two strings without slash that agree up to and including a slash after
    them are the same, as are the rests. *)
Lemma append_slash_inj x y s t :
  Str.contains "/" x = false → Str.contains "/" y = false →
  x +:+ "/" +:+ s = y +:+ "/" +:+ t → x = y ∧ s = t.
Proof.
  revert y. induction x as [|c x IH]; intros [|d y] Hx Hy Heq.
  - change (String "/" s = String "/" t) in Heq. by injection Heq as ->.
  - change (String "/" s = String d (y +:+ "/" +:+ t)) in Heq. injection Heq as <- _.
    by apply slash_free_cons in Hy as [[] _].
  - change (String c (x +:+ "/" +:+ s) = String "/" t) in Heq. injection Heq as -> _.
    by apply slash_free_cons in Hx as [[] _].
  - change (String c (x +:+ "/" +:+ s) = String d (y +:+ "/" +:+ t)) in Heq.
    injection Heq as -> Heq.
    apply slash_free_cons in Hx as [_ Hx]. apply slash_free_cons in Hy as [_ Hy].
    destruct (IH y Hx Hy Heq) as [-> ->]. done.
Qed.

Lemma slash_free_no_slash x y s :
  Str.contains "/" x = false → x ≠ y +:+ "/" +:+ s.
Proof.
  intros Hx ->. apply not_true_iff_false in Hx. apply Hx.
  apply contains_iff. by exists y, s.
Qed.

Lemma join_cons2 sep x y l :
  Str.join sep (x :: y :: l) = x +:+ sep +:+ Str.join sep (y :: l).
Proof. done. Qed.

Lemma join_slash_inj l k :
  Forall Spec.clean l → Forall Spec.clean k →
  Str.join "/" l = Str.join "/" k → l = k.
Proof.
  intros Hl. revert k. induction Hl as [|x l [Hx1 [Hx2 Hx3]] Hl IH]; intros k Hk Heq.
  - destruct Hk as [|y k [Hy1 _] Hk]; [done|].
    destruct k as [|z k]; simpl in Heq; [done|].
    destruct y; [done|]. by rewrite append_cons in Heq.
  - destruct Hk as [|y k [Hy1 [Hy2 Hy3]] Hk].
    + destruct l as [|z l]; simpl in Heq; [done|].
      destruct x; [done|]. by rewrite append_cons in Heq.
    + destruct l as [|x' l], k as [|y' k].
      * simpl in Heq. by subst.
      * rewrite join_cons2 in Heq. simpl in Heq. by apply slash_free_no_slash in Heq.
      * rewrite join_cons2 in Heq. simpl in Heq. symmetry in Heq.
        by apply slash_free_no_slash in Heq.
      * rewrite !join_cons2 in Heq.
        apply append_slash_inj in Heq as [-> Heq]; [|done..].
        f_equal. by apply IH.
Qed.

(** Distinct lists of clean components are written differently. *)
Lemma to_str_relative_inj l k :
  Forall Spec.clean l → Forall Spec.clean k →
  Pathlib.to_str (mkPath "" l) = Pathlib.to_str (mkPath "" k) → l = k.
Proof.
  assert (∀ l, Forall Spec.clean l → l ≠ [] →
            Pathlib.to_str (mkPath "" l) = Str.join "/" l
            ∧ Str.join "/" l ≠ ".") as Hne.
  { intros [|x [|y l']] Hl Hnil; [done|..].
    - apply Forall_cons in Hl as [[Hx1 [Hx2 _]] _]. unfold Pathlib.to_str. simpl.
      rewrite append_nil_l. by destruct x.
    - apply Forall_cons in Hl as [[Hx1 [Hx2 Hx3]] _]. unfold Pathlib.to_str.
      rewrite join_cons2. simpl. rewrite append_nil_l. destruct x as [|c x]; [done|].
      rewrite append_cons. split; [done|]. intros [= -> Hx].
      by destruct x. }
  intros Hl Hk Heq. destruct l as [|x l], k as [|y k]; [done|..].
  - destruct (Hne (y :: k) Hk) as [Hs Hdot]; [done|]. rewrite Hs in Heq.
    by destruct Hdot.
  - destruct (Hne (x :: l) Hl) as [Hs Hdot]; [done|]. rewrite Hs in Heq.
    by destruct Hdot.
  - destruct (Hne (x :: l) Hl) as [Hs _]; [done|].
    destruct (Hne (y :: k) Hk) as [Hs' _]; [done|].
    rewrite Hs, Hs' in Heq. by apply join_slash_inj.
Qed.

(** ** The scanned paths are tidy *)

Lemma split_on_slash_free s :
  Forall (λ x, Str.contains "/" x = false) (Str.split_on "/" s).
Proof.
  induction s as [|c s IH]; simpl; [by repeat constructor|].
  destruct (Str.split_on "/" s) as [|w ws]; [by repeat constructor|].
  apply Forall_cons in IH as [Hw Hws].
  destruct (ascii_dec c "/") as [->|Hc]; repeat constructor; try done.
  apply slash_free_cons. split; [done|done].
Qed.

Lemma parse_clean s : Forall Spec.clean (parts (Pathlib.parse s)).
Proof.
  unfold Pathlib.parse. destruct (Pathlib.splitroot s) as [r rel]. simpl.
  apply Forall_forall. intros x [Hkeep Hx]%list_elem_of_filter.
  pose proof (split_on_slash_free rel) as Hfree. rewrite Forall_forall in Hfree.
  unfold Pathlib.keep_part in Hkeep. apply andb_prop_elim in Hkeep as [Hne Hdot].
  repeat split.
  - by destruct x.
  - apply negb_prop_elim in Hdot. intros ->. by apply Hdot.
  - by apply Hfree.
Qed.

Lemma expanduser_tidy E p d :
  Spec.wf_env E → Forall Spec.clean (parts p) → expanduser E p = Ok d → Spec.tidy E d.
Proof.
  intros [_ Hhomes] Hp. unfold expanduser.
  assert (Spec.tidy E p) as Hsame by (exists [], (parts p); by eauto).
  destruct (root p) eqn:Hroot; [|by intros [= <-]].
  destruct (parts p) as [|first rest] eqn:Hparts; [by intros [= <-]|].
  apply Forall_cons in Hp as [_ Hrest].
  destruct (Str.startswith "~" first); [|by intros [= <-]].
  case_bool_decide.
  - intros [= <-]. exists (parts (HOME E)), rest. eauto.
  - destruct (user_home E (Str.drop1 first)) as [h|] eqn:Hh; [|done].
    intros [= <-]. exists [], (parts h ++ rest). simpl. split; [done|].
    split; [|by left]. apply Forall_app. split; [by eapply Hhomes|done].
Qed.

Lemma child_tidy E d n : Spec.tidy E d → Spec.clean n → Spec.tidy E (Pathlib.child d n).
Proof.
  intros (pre & suf & Hparts & Hsuf & Hpre) Hn. exists pre, (suf ++ [n]). simpl.
  split; [by rewrite Hparts, app_assoc|]. split; [|done].
  apply Forall_app. split; [done|by constructor].
Qed.

Lemma scan_lines_tidy E lines directories excludes directories' excludes' :
  Spec.wf_env E →
  Forall (Spec.tidy E) directories →
  scan_lines E (directories, excludes) lines = Ok (directories', excludes') →
  Forall (Spec.tidy E) directories'.
Proof.
  intros Hwf. revert directories excludes.
  induction lines as [|l lines IH]; intros directories excludes Hds Hscan.
  - by injection Hscan as <- <-.
  - cbn [scan_lines] in Hscan.
    destruct (scan_line E (directories, excludes) l) as [[ds es]| |] eqn:Hl; [|done..].
    simpl in Hscan. apply (IH ds es); [|done].
    apply scan_line_Ok in Hl as [_ (p & added & -> & Hadded)].
    apply Forall_app. split; [done|].
    destruct (Str.endswith "*" l); destruct Hadded as [Hp ->].
    + apply expanduser_tidy in Hp; [|done|apply parse_clean].
      apply Forall_forall. intros q (n & -> & Hn)%list_elem_of_fmap.
      apply child_tidy; [done|]. destruct Hwf as [Hnames _]. by eapply Hnames.
    + apply expanduser_tidy in Hp; [|done|apply parse_clean]. by constructor.
Qed.

Lemma under_home_parts E p :
  Spec.under_home E p →
  parts p = parts (HOME E) ++ drop (length (parts (HOME E))) (parts p).
Proof. intros [_ [k ->]]. by rewrite drop_app_length. Qed.

Lemma tidy_under_home_clean E d :
  Spec.tidy E d → Spec.under_home E d →
  Forall Spec.clean (drop (length (parts (HOME E))) (parts d)).
Proof.
  intros (pre & suf & Hparts & Hsuf & [->|[_ ->]]) Hhome.
  - simpl in Hparts. subst suf. rewrite (under_home_parts E d Hhome) in Hsuf.
    by apply Forall_app in Hsuf as [_ ?].
  - by rewrite Hparts, drop_app_length.
Qed.

(** In a well-formed environment, two scanned paths under the home directory
    with the same home-relative name are the same path. *)
Lemma home_relative_inj E p d :
  Spec.tidy E p → Spec.tidy E d → Spec.under_home E p → Spec.under_home E d →
  Spec.home_relative E p = Spec.home_relative E d → p = d.
Proof.
  intros Hp Hd Hhp Hhd Heq. unfold Spec.home_relative in Heq.
  apply to_str_relative_inj in Heq; [|by apply tidy_under_home_clean..].
  pose proof (under_home_parts E _ Hhp) as Hlp.
  pose proof (under_home_parts E _ Hhd) as Hld.
  destruct Hhp as [Hrp _], Hhd as [Hrd _].
  destruct p as [rp lp], d as [rd ld]. simpl in *. congruence.
Qed.

(** C5.  Let a line of the rules start with the exclusion marker and name
    the path [p].  When [get_local_directories] returns, [p] is in the
    exclusion set and every entry returned is the home-relative form of a
    scanned directory that is not in that set, whether the directory was
    listed or came from a wildcard; and, in an environment whose directory
    entries are well formed, the home-relative form of [p] is not among the
    entries returned. *)
Theorem excluded_path_never_listed E query candidates line p out :
  read_candidates E = Ok candidates →
  line ∈ candidates →
  Str.startswith "!" line = true →
  expanduser E (Pathlib.parse (Str.drop1 line)) = Ok p →
  get_local_directories E query = Ok out →
  (∃ directories excludes,
     scan_lines E ([], ∅) candidates = Ok (directories, excludes)
     ∧ p ∈ excludes
     ∧ ∀ entry, entry ∈ out →
         ∃ d, d ∈ directories ∧ (d ∉ excludes) ∧ d ≠ p
              ∧ relative E d = Ok entry)
  ∧ (Spec.wf_env E → Spec.under_home E p → Spec.home_relative E p ∉ out).
Proof.
  intros Hread Hline Hbang Hp Hout.
  apply get_local_directories_Ok in Hout
    as (candidates' & directories & excludes & Hread' & Hscan & Hhome & ->).
  rewrite Hread in Hread'. injection Hread' as <-.
  destruct (scan_lines_excludes E _ _ _ _ _ Hscan) as [_ Hexcl].
  specialize (Hexcl line p Hline Hbang Hp).
  assert (∀ d, d ∈ filter (λ d, valid E query excludes d) directories →
               d ∈ directories ∧ (d ∉ excludes) ∧ d ≠ p ∧ Spec.under_home E d) as Hvalid.
  { intros d [Hv Hd]%list_elem_of_filter. rewrite Forall_forall in Hhome.
    assert (d ∉ excludes) as Hnot.
    { unfold valid in Hv. apply andb_prop_elim in Hv as [_ Hv].
      by apply bool_decide_unpack in Hv. }
    split; [done|]. split; [done|]. split; [by intros ->|].
    apply Hhome. by apply list_elem_of_filter. }
  split.
  - exists directories, excludes. split; [done|]. split; [done|].
    intros entry (d & -> & Hd)%elem_of_sorted%list_elem_of_fmap.
    destruct (Hvalid d Hd) as (? & ? & ? & Hh). exists d.
    by rewrite (relative_under_home E d Hh).
  - intros Hwf Hhp (d & Heq & Hd)%elem_of_sorted%list_elem_of_fmap.
    destruct (Hvalid d Hd) as (Hin & _ & Hne & Hh). apply Hne. symmetry.
    apply (home_relative_inj E p d); try done.
    + eapply expanduser_tidy; [done|apply parse_clean|done].
    + pose proof (scan_lines_tidy E _ [] ∅ _ _ Hwf (Forall_nil_2 _) Hscan) as Htidy.
      rewrite Forall_forall in Htidy. by apply Htidy.
Qed.

Lemma excluded_path_never_listed_witness :
  ∃ out, get_local_directories (Demo.world (Some Demo.rc_exclude) None None "") "" = Ok out
         ∧ "code/b" ∉ out.
Proof.
  exists ["code/a"; "notes"]. split; [by vm_compute|].
  refine (proj2 (excluded_path_never_listed
                   (Demo.world (Some Demo.rc_exclude) None None "") ""
                   ["~/notes"; "!~/code/b"; "~/code/*"] "!~/code/b"
                   (mkPath "/" ["home"; "u"; "code"; "b"]) ["code/a"; "notes"]
                   _ _ _ _ _) _ _).
  - reflexivity.
  - apply (bool_decide_unpack _). by vm_compute.
  - reflexivity.
  - reflexivity.
  - by vm_compute.
  - split.
    + intros q n Hn. unfold Demo.world, Demo.listdir in Hn. simpl in Hn.
      destruct (decide _); [|by apply elem_of_nil in Hn].
      repeat (apply elem_of_cons in Hn as [->|Hn]; [by vm_compute|]).
      by apply elem_of_nil in Hn.
    + intros u h [=].
  - apply (bool_decide_unpack _). by vm_compute.
Defined.

(* ================================================================== *)
(** * More on the process runner and the session reconciler *)
(* ================================================================== *)

(** A command whose first token is [tmux]: what [log_and_run] does. *)
Lemma log_and_run_tmux E rest w :
  let argv := "tmux" :: clean_command rest in
  log_and_run E (Some "tmux" :: rest) w
  = (proc_run E (w ++ [Trace.logged argv]) argv, w ++ [Trace.logged argv; Launch argv]).
Proof.
  simpl. rewrite log_and_run_eq, clean_command_cons. simpl.
  change (Str.strip "tmux") with "tmux". by rewrite <-app_assoc.
Qed.

(** The existence check launches [tmux ls], whatever comes of it. *)
Lemma tmux_has_session_events E session w :
  (tmux_has_session E session w).2 = w ++ [Launch ["tmux"; "ls"]].
Proof.
  unfold tmux_has_session, mbind, M_bind, subprocess_run, lift.
  change (Str.split "tmux ls") with ["tmux"; "ls"].
  destruct (proc_run E w ["tmux"; "ls"]) as [out| |]; [|done..].
  destruct (decode out) as [text| |]; done.
Qed.

(** X7.  A command without any token that counts (all of them [None] or
    empty) is logged as an empty line, starts no process and raises
    [IndexError]. *)
Theorem log_and_run_no_token E command w :
  Forall (λ c, c = None ∨ c = Some "") command →
  log_and_run E command w = (Raise IndexError, w ++ [LogInfo "``"]).
Proof.
  intros Hnone. rewrite log_and_run_eq.
  assert (clean_command command = []) as ->; [|done].
  induction Hnone as [|c command [->| ->] _ IH]; [done|..];
    by rewrite clean_command_cons.
Qed.

Lemma log_and_run_no_token_witness :
  log_and_run (Demo.world None None None "") [None; Some ""; None] []
  = (Raise IndexError, [LogInfo "``"]).
Proof.
  apply (log_and_run_no_token (Demo.world None None None "") [None; Some ""; None] []).
  apply (bool_decide_unpack _). by vm_compute.
Defined.

(** The run of [new_window] inside of a tmux client. *)
Lemma new_window_run E self w :
  WITHIN_TMUX E = true →
  let argv := "tmux" :: "new-window" :: "-n"
              :: clean_command (Some (name self) :: dir self ++ [command self]) in
  new_window E self w
  = (Trace.dropped (proc_run E (w ++ [Trace.logged argv]) argv),
     w ++ [Trace.logged argv; Launch argv]).
Proof.
  intros Htmux. unfold new_window. rewrite Htmux.
  unfold mbind at 1, M_bind at 1.
  change ([Some "tmux"; Some "new-window"; Some "-n"; Some (name self)]
          ++ dir self ++ [command self])
    with (Some "tmux" :: Some "new-window" :: Some "-n"
          :: Some (name self) :: dir self ++ [command self]).
  rewrite log_and_run_tmux. rewrite !(clean_command_cons (Some _)).
  change (truthy (Some "new-window")) with true.
  change (truthy (Some "-n")) with true. cbn iota.
  change (Str.strip (default "" (Some "new-window"))) with "new-window".
  change (Str.strip (default "" (Some "-n"))) with "-n".
  by destruct (proc_run E _ _).
Qed.

(** X1.  Inside a tmux client, [new_window] logs and launches one command,
    [tmux new-window -n] followed by the name, the directory tokens and the
    command, cleaned; it asks for no session list, creates no session and
    neither attaches nor switches.  Its outcome is the one of that launch. *)
Theorem new_window_within_tmux E self w :
  WITHIN_TMUX E = true →
  let argv := "tmux" :: "new-window" :: "-n"
              :: clean_command (Some (name self) :: dir self ++ [command self]) in
  new_window E self w
  = (Trace.dropped (proc_run E (w ++ [Trace.logged argv]) argv),
     w ++ [Trace.logged argv; Launch argv])
  ∧ Spec.create_calls (new_window E self w).2 = Spec.create_calls w.
Proof.
  intros Htmux. simpl. rewrite (new_window_run E self w Htmux). split; [done|].
  simpl. rewrite create_calls_app. unfold Spec.create_calls at 2. simpl. lia.
Qed.

Lemma new_window_within_tmux_witness :
  new_window (Demo.world None None Demo.tmux_socket "")
             (Muxer_init "proj" None (Some "/home/u/proj")) []
  = (Ok tt,
     [LogInfo "`tmux new-window -n proj -c /home/u/proj`";
      Launch ["tmux"; "new-window"; "-n"; "proj"; "-c"; "/home/u/proj"]]).
Proof.
  refine (proj1 (new_window_within_tmux (Demo.world None None Demo.tmux_socket "")
                   (Muxer_init "proj" None (Some "/home/u/proj")) [] _)).
  reflexivity.
Defined.

(** X2.  Outside of a tmux client, window mode is session mode: [new_window]
    and [new_session] do the same. *)
Theorem new_window_outside_is_new_session E self w :
  WITHIN_TMUX E = false → new_window E self w = new_session E self w.
Proof. intros Htmux. unfold new_window, new_session. by rewrite Htmux. Qed.

Lemma new_window_outside_is_new_session_witness :
  new_window (Demo.world None None None Demo.ls_proj)
             (Muxer_init "proj" None (Some "/home/u/proj")) []
  = new_session (Demo.world None None None Demo.ls_proj)
                (Muxer_init "proj" None (Some "/home/u/proj")) [].
Proof.
  apply (new_window_outside_is_new_session (Demo.world None None None Demo.ls_proj)).
  reflexivity.
Defined.

(** What [attach] and [switch] do. *)
Lemma attach_eq E self w :
  let argv := "tmux" :: "attach" :: "-t" :: clean_command [Some (name self)] in
  attach E self w
  = (Trace.dropped (proc_run E (w ++ [Trace.logged argv]) argv),
     w ++ [Trace.logged argv; Launch argv]).
Proof.
  simpl. unfold attach, mbind, M_bind. rewrite log_and_run_tmux.
  rewrite !(clean_command_cons (Some _)).
  change (truthy (Some "attach")) with true. change (truthy (Some "-t")) with true.
  cbn iota.
  change (Str.strip (default "" (Some "attach"))) with "attach".
  change (Str.strip (default "" (Some "-t"))) with "-t".
  by destruct (proc_run E _ _).
Qed.

Lemma switch_eq E self w :
  let argv := "tmux" :: "switch-client" :: "-t" :: clean_command [Some (name self)] in
  switch E self w
  = (Trace.dropped (proc_run E (w ++ [Trace.logged argv]) argv),
     w ++ [Trace.logged argv; Launch argv]).
Proof.
  simpl. unfold switch, mbind, M_bind. rewrite log_and_run_tmux.
  rewrite !(clean_command_cons (Some _)).
  change (truthy (Some "switch-client")) with true. change (truthy (Some "-t")) with true.
  cbn iota.
  change (Str.strip (default "" (Some "switch-client"))) with "switch-client".
  change (Str.strip (default "" (Some "-t"))) with "-t".
  by destruct (proc_run E _ _).
Qed.

(** The last step of [new_session]: a switch inside of a tmux client, an
    attach outside. *)
Lemma new_session_last_step E self w :
  let verb := if WITHIN_TMUX E then "switch-client" else "attach" in
  let argv := "tmux" :: verb :: "-t" :: clean_command [Some (name self)] in
  (if WITHIN_TMUX E then switch E self else attach E self) w
  = (Trace.dropped (proc_run E (w ++ [Trace.logged argv]) argv),
     w ++ [Trace.logged argv; Launch argv]).
Proof. destruct (WITHIN_TMUX E); [apply switch_eq|apply attach_eq]. Qed.

(** The run of [new_session], step by step. *)
Lemma new_session_run E self w :
  let w0 := w ++ [Launch ["tmux"; "ls"]] in
  let flag := if WITHIN_TMUX E then "-d" else "-A" in
  let create := "tmux" :: "new-session" :: flag :: "-s"
                :: clean_command (Some (name self) :: dir self ++ [command self]) in
  let last := if WITHIN_TMUX E then switch E self else attach E self in
  new_session E self w =
    match (tmux_has_session E (name self) w).1 with
    | Ok (Some _) => last w0
    | Ok None =>
        match proc_run E (w0 ++ [Trace.logged create]) create with
        | Ok _ => last (w0 ++ [Trace.logged create; Launch create])
        | Raise e => (Raise e, w0 ++ [Trace.logged create; Launch create])
        | Unmodelled => (Unmodelled, w0 ++ [Trace.logged create; Launch create])
        end
    | Raise e => (Raise e, w0)
    | Unmodelled => (Unmodelled, w0)
    end.
Proof.
  simpl. unfold new_session. unfold mbind at 1, M_bind at 1.
  pose proof (tmux_has_session_events E (name self) w) as Hev.
  destruct (tmux_has_session E (name self) w) as [[[i|]| |] w0]; simpl in *; subst w0;
    [done| |done..].
  unfold mbind at 1, M_bind at 1. unfold mbind at 1, M_bind at 1.
  change ([Some "tmux"; Some "new-session"; Some (if WITHIN_TMUX E then "-d" else "-A");
           Some "-s"; Some (name self)] ++ dir self ++ [command self])
    with (Some "tmux" :: Some "new-session" :: Some (if WITHIN_TMUX E then "-d" else "-A")
          :: Some "-s" :: Some (name self) :: dir self ++ [command self]).
  rewrite log_and_run_tmux. rewrite !(clean_command_cons (Some _)).
  change (truthy (Some "new-session")) with true.
  change (truthy (Some "-s")) with true.
  change (Str.strip (default "" (Some "new-session"))) with "new-session".
  change (Str.strip (default "" (Some "-s"))) with "-s".
  destruct (WITHIN_TMUX E); cbn iota;
    [change (Str.strip (default "" (Some "-d"))) with "-d"
    |change (Str.strip (default "" (Some "-A"))) with "-A"];
    rewrite <-!app_assoc; simpl; by destruct (proc_run E _ _).
Qed.

(** X3.  When the existence check finds the session, [new_session] creates
    nothing: after [tmux ls] it launches one more command, [tmux
    switch-client -t name] inside of a tmux client and [tmux attach -t name]
    outside, and its outcome is the one of that launch. *)
Theorem new_session_found E self w i :
  (tmux_has_session E (name self) w).1 = Ok (Some i) →
  let verb := if WITHIN_TMUX E then "switch-client" else "attach" in
  let argv := "tmux" :: verb :: "-t" :: clean_command [Some (name self)] in
  let w0 := w ++ [Launch ["tmux"; "ls"]] in
  new_session E self w
  = (Trace.dropped (proc_run E (w0 ++ [Trace.logged argv]) argv),
     w0 ++ [Trace.logged argv; Launch argv])
  ∧ Spec.create_calls (new_session E self w).2 = Spec.create_calls w.
Proof.
  intros Hfound. simpl. rewrite new_session_run. simpl. rewrite Hfound.
  rewrite new_session_last_step. split; [done|]. simpl.
  rewrite !create_calls_app. unfold Spec.create_calls at 2 3.
  destruct (WITHIN_TMUX E); simpl; lia.
Qed.

Lemma new_session_found_witness :
  new_session (Demo.world None None None Scenario.ls_backspaced)
              (Muxer_init "proj" None (Some "/home/u/proj")) []
  = (Ok tt, [Launch ["tmux"; "ls"]; LogInfo "`tmux attach -t proj`";
             Launch ["tmux"; "attach"; "-t"; "proj"]]).
Proof.
  refine (proj1 (new_session_found (Demo.world None None None Scenario.ls_backspaced)
                   (Muxer_init "proj" None (Some "/home/u/proj")) [] 0 _)).
  by vm_compute.
Defined.

(** X4.  When the existence check finds no session, [new_session] launches
    [tmux new-session] with the flag [-d] inside of a tmux client and [-A]
    outside, then [-s], the name, the directory tokens and the command; if
    that launch fails its exception ends the run, otherwise the switch or
    the attach follows. *)
Theorem new_session_absent E self w :
  (tmux_has_session E (name self) w).1 = Ok None →
  let flag := if WITHIN_TMUX E then "-d" else "-A" in
  let create := "tmux" :: "new-session" :: flag :: "-s"
                :: clean_command (Some (name self) :: dir self ++ [command self]) in
  let verb := if WITHIN_TMUX E then "switch-client" else "attach" in
  let argv := "tmux" :: verb :: "-t" :: clean_command [Some (name self)] in
  let w1 := w ++ [Launch ["tmux"; "ls"]; Trace.logged create] in
  let w2 := w1 ++ [Launch create; Trace.logged argv] in
  new_session E self w =
    match proc_run E w1 create with
    | Ok _ => (Trace.dropped (proc_run E w2 argv), w2 ++ [Launch argv])
    | Raise e => (Raise e, w1 ++ [Launch create])
    | Unmodelled => (Unmodelled, w1 ++ [Launch create])
    end.
Proof.
  intros Habsent. simpl. rewrite new_session_run. simpl. rewrite Habsent.
  rewrite <-!app_assoc. simpl.
  destruct (proc_run E _ _) as [out| |]; [|done..].
  rewrite new_session_last_step. by rewrite <-!app_assoc.
Qed.

Lemma new_session_absent_witness :
  new_session (Demo.world None None Demo.tmux_socket "")
              (Muxer_init "SSH_a" (Some " ssh a") None) []
  = (Ok tt, [Launch ["tmux"; "ls"];
             LogInfo "`tmux new-session -d -s SSH_a ssh a`";
             Launch ["tmux"; "new-session"; "-d"; "-s"; "SSH_a"; "ssh a"];
             LogInfo "`tmux switch-client -t SSH_a`";
             Launch ["tmux"; "switch-client"; "-t"; "SSH_a"]]).
Proof.
  apply (new_session_absent (Demo.world None None Demo.tmux_socket "")
           (Muxer_init "SSH_a" (Some " ssh a") None) []).
  by vm_compute.
Defined.

Lemma launches_app evs1 evs2 :
  Trace.launches (evs1 ++ evs2) = Trace.launches evs1 ++ Trace.launches evs2.
Proof. unfold Trace.launches. apply omap_app. Qed.

(** X5.  In every run of the reconciler that the embedding covers (its
    outcome is a value or a Python exception, not [Unmodelled]: the session
    name holds no operator of regular expressions and [tmux ls] prints ASCII
    text), and whatever the mode and the outcome of the launches, the
    reconciler only adds events, launches nothing but [tmux], and launches it
    at least once and at most three times. *)
Theorem reconcile_only_tmux E window self w :
  (Target.reconcile E window self w).1 ≠ Unmodelled →
  ∃ evs, (Target.reconcile E window self w).2 = w ++ evs
         ∧ Trace.only_tmux evs
         ∧ 1 ≤ length (Trace.launches evs) ≤ 3.
Proof.
  intros _.
  assert (∀ w, ∃ evs, (new_session E self w).2 = w ++ evs
                      ∧ Trace.only_tmux evs
                      ∧ 1 ≤ length (Trace.launches evs) ≤ 3) as Hsession.
  { clear w. intros w. rewrite new_session_run. simpl.
    destruct (tmux_has_session E (name self) w).1 as [[i|]| |].
    - rewrite new_session_last_step. simpl. eexists. rewrite <-app_assoc.
      split; [reflexivity|]. split; [|simpl; lia].
      unfold Trace.only_tmux. simpl. by repeat constructor.
    - destruct (proc_run E _ _) as [out| |]; rewrite ?new_session_last_step; simpl;
        rewrite <-?app_assoc; (eexists; split; [reflexivity|]);
        (split; [unfold Trace.only_tmux; simpl; by repeat constructor|simpl; lia]).
    - eexists. split; [reflexivity|].
      split; [unfold Trace.only_tmux; simpl; by repeat constructor|simpl; lia].
    - eexists. split; [reflexivity|].
      split; [unfold Trace.only_tmux; simpl; by repeat constructor|simpl; lia]. }
  unfold Target.reconcile. destruct window; [|apply Hsession].
  destruct (WITHIN_TMUX E) eqn:Htmux.
  - unfold new_window. rewrite Htmux. unfold mbind, M_bind.
    change ([Some "tmux"; Some "new-window"; Some "-n"; Some (name self)]
            ++ dir self ++ [command self])
      with (Some "tmux" :: Some "new-window" :: Some "-n"
            :: Some (name self) :: dir self ++ [command self]).
    rewrite log_and_run_tmux. simpl. eexists.
    split; [by destruct (proc_run E _ _)|].
    split; [unfold Trace.only_tmux; simpl; by repeat constructor|simpl; lia].
  - replace (new_window E self w) with (new_session E self w); [apply Hsession|].
    unfold new_window, new_session. by rewrite Htmux.
Qed.

Lemma reconcile_only_tmux_witness :
  ∃ evs,
    (Target.reconcile (Demo.world None None None Demo.ls_proj) false
       (Muxer_init "proj" None (Some "/home/u/proj")) []).2 = [] ++ evs
    ∧ Trace.only_tmux evs
    ∧ 1 ≤ length (Trace.launches evs) ≤ 3.
Proof.
  apply (reconcile_only_tmux (Demo.world None None None Demo.ls_proj) false
           (Muxer_init "proj" None (Some "/home/u/proj")) []).
  vm_compute. discriminate.
Defined.

(** Runs the embedding covers: with a session name free of operators, a
    listing in ASCII and launches that yield output or raise, the outcome of
    the reconciler is a value or an exception. *)
Lemma reconcile_modelled E window self w :
  existsb re_special (String.list_ascii_of_string (name self)) = false →
  (∀ w' out, proc_run E w' ["tmux"; "ls"] = Ok out → decode out = Ok out) →
  (∀ w' argv, proc_run E w' argv ≠ Unmodelled) →
  (Target.reconcile E window self w).1 ≠ Unmodelled.
Proof.
  intros Hname Hascii Hrun.
  assert (∀ w' argv, Trace.dropped (proc_run E w' argv) ≠ Unmodelled) as Hdrop.
  { intros w' argv. specialize (Hrun w' argv). by destruct (proc_run E w' argv). }
  assert (∀ w, (new_session E self w).1 ≠ Unmodelled) as Hsession.
  { clear w. intros w. rewrite new_session_run. simpl.
    destruct (proc_run E w ["tmux"; "ls"]) as [out| |] eqn:Hls.
    - rewrite (tmux_has_session_eq E (name self) w out Hls (Hascii w out Hls) Hname).
      simpl. destruct (Str.find _ out).
      + rewrite new_session_last_step. apply Hdrop.
      + match goal with
        | |- context [match proc_run E ?a ?b with _ => _ end] =>
            destruct (proc_run E a b) as [o| |] eqn:Hcreate
        end; [|done|by apply Hrun in Hcreate].
        rewrite new_session_last_step. apply Hdrop.
    - unfold tmux_has_session, mbind, M_bind, subprocess_run.
      change (Str.split "tmux ls") with ["tmux"; "ls"]. by rewrite Hls.
    - by apply Hrun in Hls. }
  unfold Target.reconcile. destruct window; [|apply Hsession].
  destruct (WITHIN_TMUX E) eqn:Htmux.
  - rewrite (new_window_run E self w Htmux). apply Hdrop.
  - replace (new_window E self w) with (new_session E self w); [apply Hsession|].
    unfold new_window, new_session. by rewrite Htmux.
Qed.

(** X6.  When [tmux ls] prints the ASCII text [out] and the session name
    holds no operator of regular expressions, the existence check reports the
    session exactly when [out] holds the name between two backspace
    characters (U+0008); the name on its own in the listing is not enough. *)
Theorem tmux_has_session_iff_backspaced E session w out :
  proc_run E w ["tmux"; "ls"] = Ok out →
  decode out = Ok out →
  existsb re_special (String.list_ascii_of_string session) = false →
  ∃ found,
    tmux_has_session E session w = (Ok found, w ++ [Launch ["tmux"; "ls"]])
    ∧ (is_Some found ↔
       ∃ a b, out = a +:+ String "008" (session +:+ String "008" b)).
Proof.
  intros Hrun Hdec Hlit. eexists. split; [by apply tmux_has_session_eq|].
  rewrite find_is_Some, contains_iff. unfold session_pattern.
  split; intros (a & b & ->); exists a, b.
  - by rewrite append_cons, append_assoc.
  - by rewrite append_cons, append_assoc.
Qed.

Lemma tmux_has_session_iff_backspaced_witness :
  ∃ found,
    tmux_has_session (Demo.world None None None Scenario.ls_backspaced) "proj" []
    = (Ok found, [Launch ["tmux"; "ls"]])
    ∧ (is_Some found ↔
       ∃ a b, Scenario.ls_backspaced = a +:+ String "008" ("proj" +:+ String "008" b)).
Proof.
  apply (tmux_has_session_iff_backspaced
           (Demo.world None None None Scenario.ls_backspaced) "proj" []
           Scenario.ls_backspaced); reflexivity.
Defined.

(* ================================================================== *)
(** * The entry point *)
(* ================================================================== *)

(** [main] once both discoveries have returned and the selector has
    answered. *)
Lemma main_run E q window w hosts dirs chosen w' :
  get_ssh_hosts E q = Ok hosts →
  get_local_directories E q = Ok dirs →
  choose E (hosts ++ dirs) (Target.prompt window) ("'" +:+ q) w = (Ok chosen, w') →
  main E q window w =
    if truthy chosen
    then Target.reconcile E window (Target.muxer E (default "" chosen)) w'
    else (Ok tt, w' ++ [Echo "Nothing chosen"]).
Proof.
  intros Hhosts Hdirs Hchoose. unfold main.
  replace (if Str.truthy q then q else "") with q by (by destruct q).
  unfold mbind, M_bind, lift. rewrite Hhosts, Hdirs.
  unfold Target.prompt in Hchoose. rewrite Hchoose.
  destruct (truthy chosen); [|done]. simpl.
  unfold Target.reconcile, Target.muxer. by destruct window.
Qed.

(** No candidate is the empty string. *)
Lemma to_str_nonempty p : Pathlib.to_str p ≠ "".
Proof. unfold Pathlib.to_str. by destruct (root p +:+ Str.join "/" (parts p)). Qed.

Lemma candidates_nonempty E q hosts dirs c :
  get_ssh_hosts E q = Ok hosts →
  get_local_directories E q = Ok dirs →
  c ∈ hosts ++ dirs → c ≠ "".
Proof.
  intros Hhosts Hdirs [Hc|Hc]%elem_of_app.
  - unfold get_ssh_hosts in Hhosts.
    destruct (read_text E _) as [text| |]; [|done..]. simpl in Hhosts.
    injection Hhosts as <-.
    apply elem_of_sorted, list_elem_of_fmap in Hc as (alias & -> & _). done.
  - apply get_local_directories_Ok in Hdirs as (? & ? & ? & _ & _ & _ & ->).
    apply elem_of_sorted, list_elem_of_fmap in Hc as (d & -> & _).
    apply to_str_nonempty.
Qed.

(** X8.  When both discoveries return and nothing is selected (there is no
    candidate at all, or there are several and the selector is cancelled),
    [main] prints [Nothing chosen], ends normally and launches nothing; the
    selector is shown in the second case only. *)
Theorem main_nothing_chosen E q window w hosts dirs :
  get_ssh_hosts E q = Ok hosts →
  get_local_directories E q = Ok dirs →
  (hosts ++ dirs = [] → main E q window w = (Ok tt, w ++ [Echo "Nothing chosen"]))
  ∧ (2 ≤ length (hosts ++ dirs) →
     fzf_pick E w (hosts ++ dirs) (Target.prompt window) ("'" +:+ q) = None →
     main E q window w
     = (Ok tt, w ++ [Fzf (hosts ++ dirs) (Target.prompt window) ("'" +:+ q);
                     Echo "Nothing chosen"])).
Proof.
  intros Hhosts Hdirs. split.
  - intros Hnil. rewrite (main_run E q window w hosts dirs None w) by (by rewrite ?Hnil).
    done.
  - intros Hlen Hpick.
    rewrite (main_run E q window w hosts dirs None
               (w ++ [Fzf (hosts ++ dirs) (Target.prompt window) ("'" +:+ q)])); try done.
    + simpl. by rewrite <-app_assoc.
    + destruct (hosts ++ dirs) as [|x [|y l]]; simpl in Hlen; [lia..|].
      simpl. by rewrite Hpick.
Qed.

Lemma main_nothing_chosen_witness :
  main (Demo.world (Some "") (Some "") None "") "" false []
  = (Ok tt, [Echo "Nothing chosen"]).
Proof.
  refine (proj1 (main_nothing_chosen (Demo.world (Some "") (Some "") None "") ""
                   false [] [] [] _ _) _); reflexivity.
Defined.

(** X9.  When the two discoveries return exactly one candidate between
    them, [main] takes it without showing the selector and without printing
    anything: it goes straight to the reconciliation of the session that
    candidate stands for. *)
Theorem main_single_candidate E q window w hosts dirs c :
  get_ssh_hosts E q = Ok hosts →
  get_local_directories E q = Ok dirs →
  hosts ++ dirs = [c] →
  main E q window w = Target.reconcile E window (Target.muxer E c) w.
Proof.
  intros Hhosts Hdirs Hone.
  rewrite (main_run E q window w hosts dirs (Some c) w) by (by rewrite ?Hone).
  assert (c ≠ "") as Hc.
  { apply (candidates_nonempty E q hosts dirs); [done..|]. rewrite Hone. by left. }
  simpl. by destruct c.
Qed.

Lemma main_single_candidate_witness :
  main (Demo.world (Some "~/notes") (Some "") None "") "" false []
  = Target.reconcile (Demo.world (Some "~/notes") (Some "") None "") false
      (Target.muxer (Demo.world (Some "~/notes") (Some "") None "") "notes") [].
Proof.
  apply (main_single_candidate (Demo.world (Some "~/notes") (Some "") None "") ""
           false [] [] ["notes"] "notes"); by vm_compute.
Defined.

(** X16.  An exception of either discovery ends [main] at once, before the
    selector is shown and before anything is logged, printed or launched; a
    failure of the directory discovery does so even though the SSH hosts
    were found. *)
Theorem main_discovery_failure E q window w e :
  get_ssh_hosts E q = Raise e
  ∨ ((∃ hosts, get_ssh_hosts E q = Ok hosts) ∧ get_local_directories E q = Raise e) →
  main E q window w = (Raise e, w).
Proof.
  intros Hfail. unfold main.
  replace (if Str.truthy q then q else "") with q by (by destruct q).
  unfold mbind, M_bind, lift.
  destruct Hfail as [->|[[hosts ->] ->]]; done.
Qed.

Lemma main_discovery_failure_witness :
  main (Demo.world (Some Demo.rc_outside) (Some "Host a") None "") "" false []
  = (Raise ValueError, []).
Proof.
  apply (main_discovery_failure
           (Demo.world (Some Demo.rc_outside) (Some "Host a") None "") "" false []).
  right. split; [by eexists|by vm_compute].
Defined.

(** ** Words hold no whitespace *)

Lemma no_space_cons c s :
  Trace.no_space (String c s) ↔ Str.isspace c = false ∧ Trace.no_space s.
Proof. unfold Trace.no_space. simpl. by rewrite Forall_cons. Qed.

Lemma split_aux_no_space s :
  Trace.no_space (Str.split_aux s).1
  ∧ Forall (λ t, Trace.no_space t ∧ t ≠ "") (Str.split_aux s).2.
Proof.
  induction s as [|c s [Hw Hws]]; simpl; [by split; constructor|].
  destruct (Str.split_aux s) as [w ws]. simpl in *.
  destruct (Str.isspace c) eqn:Hc; simpl.
  - split; [by constructor|]. unfold Str.cons_word.
    destruct w; simpl; [done|]. by constructor.
  - split; [by apply no_space_cons|done].
Qed.

Lemma split_no_space s t : t ∈ Str.split s → Trace.no_space t ∧ t ≠ "".
Proof.
  unfold Str.split. destruct (split_aux_no_space s) as [Hw Hws].
  destruct (Str.split_aux s) as [w ws]. simpl in *. unfold Str.cons_word.
  rewrite Forall_forall in Hws.
  destruct w; simpl; [by apply Hws|].
  intros [->|Ht]%elem_of_cons; [done|by apply Hws].
Qed.

Lemma rstrip_no_space s : Trace.no_space s → Str.rstrip s = s.
Proof.
  induction s as [|c s IH]; [done|]. intros [Hc Hs]%no_space_cons.
  simpl. rewrite (IH Hs), Hc. by destruct s.
Qed.

(** Text that ends in a word without whitespace has nothing to strip on
    the right. *)
Lemma rstrip_app_no_space a b :
  Trace.no_space b → b ≠ "" → Str.rstrip (a +:+ b) = a +:+ b.
Proof.
  intros Hb Hne. induction a as [|c a IH]; [by apply rstrip_no_space|].
  rewrite append_cons. simpl. rewrite IH.
  destruct (a +:+ b) eqn:Hab; [|done].
  destruct a; [by destruct Hne|by rewrite append_cons in Hab].
Qed.

(** The aliases behind the entries of [get_ssh_hosts] are words. *)
Lemma ssh_alias_word E q hosts alias :
  get_ssh_hosts E q = Ok hosts →
  "ssh: " +:+ alias ∈ hosts →
  Trace.no_space alias ∧ alias ≠ "".
Proof.
  intros Hhosts Hin. unfold get_ssh_hosts in Hhosts.
  destruct (read_text E _) as [text| |]; [|done..]. simpl in Hhosts.
  injection Hhosts as <-.
  apply elem_of_sorted, list_elem_of_fmap in Hin as (alias' & Heq & Hin).
  apply (inj (String.app "ssh: ")) in Heq as <-.
  assert (alias ∈ mjoin (host_aliases <$> Str.splitlines text)) as Hal.
  { destruct (Str.truthy q); [by apply list_elem_of_filter in Hin as [_ ?]|done]. }
  apply elem_of_host_aliases in Hal as (line & _ & _ & _ & Hal).
  by apply elem_of_tail, split_no_space in Hal.
Qed.

(** X10.  Window mode inside a tmux client, an SSH host selected: [main]
    launches exactly one command after the selection, [tmux new-window -n
    SSH_alias] with the single token [ssh alias] as the command to run (the
    leading blank of the command is stripped); no session is listed, created,
    attached or switched to. *)
Theorem main_ssh_window E q w hosts dirs alias w' :
  WITHIN_TMUX E = true →
  get_ssh_hosts E q = Ok hosts →
  get_local_directories E q = Ok dirs →
  "ssh: " +:+ alias ∈ hosts →
  choose E (hosts ++ dirs) "WINDOW > " ("'" +:+ q) w = (Ok (Some ("ssh: " +:+ alias)), w') →
  let argv := ["tmux"; "new-window"; "-n"; "SSH_" +:+ alias; "ssh " +:+ alias] in
  main E q true w
  = (Trace.dropped (proc_run E (w' ++ [Trace.logged argv]) argv),
     w' ++ [Trace.logged argv; Launch argv]).
Proof.
  intros Htmux Hhosts Hdirs Hin Hchoose. simpl.
  destruct (ssh_alias_word E q hosts alias Hhosts Hin) as [Hns Hne].
  rewrite (main_run E q true w hosts dirs _ w' Hhosts Hdirs Hchoose).
  change (truthy (Some ("ssh: " +:+ alias))) with true. cbn iota.
  unfold Target.reconcile, Target.muxer.
  change (default "" (Some ("ssh: " +:+ alias))) with ("ssh: " +:+ alias).
  change (Str.startswith "ssh: " ("ssh: " +:+ alias)) with true. cbn iota.
  change (Str.drop 5 ("ssh: " +:+ alias)) with alias.
  rewrite (new_window_run E _ w' Htmux). simpl.
  rewrite !clean_command_cons.
  change (truthy (Some ("SSH_" +:+ alias))) with true.
  change (truthy (Some (" ssh " +:+ alias))) with true. cbn iota.
  change (clean_command []) with (@nil string).
  assert (Str.strip ("SSH_" +:+ alias) = "SSH_" +:+ alias) as Hname.
  { unfold Str.strip. change (Str.lstrip ("SSH_" +:+ alias)) with ("SSH_" +:+ alias).
    by apply rstrip_app_no_space. }
  assert (Str.strip (" ssh " +:+ alias) = "ssh " +:+ alias) as Hcmd.
  { unfold Str.strip. change (Str.lstrip (" ssh " +:+ alias)) with ("ssh " +:+ alias).
    by apply rstrip_app_no_space. }
  simpl. by rewrite Hname, Hcmd.
Qed.

Lemma main_ssh_window_witness :
  main (Demo.world (Some "") (Some "Host a") Demo.tmux_socket "") "" true []
  = (Ok tt, [LogInfo "`tmux new-window -n SSH_a ssh a`";
             Launch ["tmux"; "new-window"; "-n"; "SSH_a"; "ssh a"]]).
Proof.
  apply (main_ssh_window (Demo.world (Some "") (Some "Host a") Demo.tmux_socket "")
           "" [] ["ssh: a"] [] "a" []).
  - reflexivity.
  - by vm_compute.
  - by vm_compute.
  - apply (bool_decide_unpack _). by vm_compute.
  - reflexivity.
Defined.

(* ================================================================== *)
(** * More on the directory discovery *)
(* ================================================================== *)

(** The directories a rule line adds are kept to the end of the scan. *)
Lemma scan_lines_directories E lines directories excludes directories' excludes' :
  scan_lines E (directories, excludes) lines = Ok (directories', excludes') →
  (∀ d, d ∈ directories → d ∈ directories')
  ∧ ∀ line, line ∈ lines →
      if Str.endswith "*" line
      then ∃ p, expanduser E (Pathlib.parse (Str.drop_last line)) = Ok p
                ∧ ∀ n, n ∈ fs_listdir E p → Pathlib.child p n ∈ directories'
      else ∃ p, expanduser E (Pathlib.parse line) = Ok p ∧ p ∈ directories'.
Proof.
  revert directories excludes.
  induction lines as [|l lines IH]; intros directories excludes Hscan.
  - injection Hscan as <- <-. split; [done|]. by intros ? ?%elem_of_nil.
  - cbn [scan_lines] in Hscan.
    destruct (scan_line E (directories, excludes) l) as [[ds es]| |] eqn:Hl; [|done..].
    simpl in Hscan. destruct (IH _ _ Hscan) as [Hkeep Hlines].
    apply scan_line_Ok in Hl as [_ (p & added & -> & Hadded)]. split.
    + intros d Hd. apply Hkeep, elem_of_app. by left.
    + intros line [->|Hline]%elem_of_cons; [|by apply Hlines].
      destruct (Str.endswith "*" l); destruct Hadded as [Hp ->]; exists p.
      * split; [done|]. intros n Hn. apply Hkeep, elem_of_app. right.
        by apply list_elem_of_fmap_2.
      * split; [done|]. apply Hkeep, elem_of_app. right. by left.
Qed.

(** [valid], spelled out. *)
Lemma valid_true E query excludes d :
  valid E query excludes d = true ↔
  fs_is_dir E d = true ∧ Spec.hidden d = false
  ∧ Str.contains query (Pathlib.stem d) = true ∧ d ∉ excludes.
Proof.
  unfold valid. rewrite stem_hidden, !andb_true_iff, negb_true_iff, bool_decide_eq_true.
  split.
  - by intros [[[? ?] ?] ?].
  - by intros (? & ? & ? & ?).
Qed.

(** X14.  Each time [get_local_directories] returns, its result is sorted;
    every entry is the home-relative form of a scanned directory that
    exists, is not hidden, is not excluded, lies under the home directory
    and has a stem containing the query; and every scanned directory that
    exists, is not hidden, is not excluded and has such a stem has its entry
    in the result. *)
Theorem get_local_directories_sound_complete E query out :
  get_local_directories E query = Ok out →
  ∃ candidates directories excludes,
    read_candidates E = Ok candidates
    ∧ scan_lines E ([], ∅) candidates = Ok (directories, excludes)
    ∧ Sorted String.le out
    ∧ (∀ entry, entry ∈ out →
         ∃ d, d ∈ directories ∧ entry = Spec.home_relative E d
              ∧ fs_is_dir E d = true ∧ Spec.hidden d = false
              ∧ Str.contains query (Pathlib.stem d) = true
              ∧ (d ∉ excludes) ∧ Spec.under_home E d)
    ∧ (∀ d, d ∈ directories → fs_is_dir E d = true → Spec.hidden d = false →
            Str.contains query (Pathlib.stem d) = true → d ∉ excludes →
            Spec.home_relative E d ∈ out).
Proof.
  intros (candidates & directories & excludes & Hread & Hscan & Hhome & ->)
    %get_local_directories_Ok.
  exists candidates, directories, excludes.
  split; [done|]. split; [done|]. split; [apply sorted_Sorted|]. split.
  - intros entry (d & -> & Hd)%elem_of_sorted%list_elem_of_fmap. exists d.
    rewrite Forall_forall in Hhome. specialize (Hhome d Hd).
    apply list_elem_of_filter in Hd as [Hv%Is_true_true%valid_true Hd].
    destruct Hv as (? & ? & ? & ?). done.
  - intros d Hd Hdir Hhid Hq Hex.
    apply elem_of_sorted, list_elem_of_fmap_2, list_elem_of_filter.
    split; [|done]. apply Is_true_true, valid_true. done.
Qed.

Lemma get_local_directories_sound_complete_witness :
  Sorted String.le ["code/a"; "notes"]
  ∧ "code/a" = Spec.home_relative (Demo.world (Some Demo.rc_exclude) None None "")
                 (mkPath "/" ["home"; "u"; "code"; "a"]).
Proof.
  destruct (get_local_directories_sound_complete
              (Demo.world (Some Demo.rc_exclude) None None "") "" ["code/a"; "notes"])
    as (candidates & directories & excludes & _ & _ & Hsorted & _ & _).
  - by vm_compute.
  - split; [exact Hsorted|reflexivity].
Defined.

(** X13.  A rule line that ends with the wildcard stands for the entries of
    the directory named before it: when [get_local_directories] returns,
    every entry of that directory that is itself a directory, not hidden, not
    excluded and has a stem containing the query is in the result, in its
    home-relative form. *)
Theorem wildcard_children_listed E query candidates directories excludes out line p n :
  read_candidates E = Ok candidates →
  scan_lines E ([], ∅) candidates = Ok (directories, excludes) →
  get_local_directories E query = Ok out →
  line ∈ candidates →
  Str.endswith "*" line = true →
  expanduser E (Pathlib.parse (Str.drop_last line)) = Ok p →
  n ∈ fs_listdir E p →
  fs_is_dir E (Pathlib.child p n) = true →
  Spec.hidden (Pathlib.child p n) = false →
  Str.contains query (Pathlib.stem (Pathlib.child p n)) = true →
  Pathlib.child p n ∉ excludes →
  Spec.home_relative E (Pathlib.child p n) ∈ out.
Proof.
  intros Hread Hscan Hout Hline Hstar Hp Hn Hdir Hhid Hq Hex.
  apply get_local_directories_Ok in Hout
    as (candidates' & directories' & excludes' & Hread' & Hscan' & _ & ->).
  rewrite Hread in Hread'. injection Hread' as <-.
  rewrite Hscan in Hscan'. injection Hscan' as <- <-.
  destruct (scan_lines_directories E _ _ _ _ _ Hscan) as [_ Hlines].
  specialize (Hlines line Hline). rewrite Hstar in Hlines.
  destruct Hlines as (p' & Hp' & Hchildren). rewrite Hp in Hp'. injection Hp' as <-.
  apply elem_of_sorted, list_elem_of_fmap_2, list_elem_of_filter.
  split; [by apply Is_true_true, valid_true|by apply Hchildren].
Qed.

Lemma wildcard_children_listed_witness :
  "code/a" ∈ ["code/a"; "code/b"; "notes"].
Proof.
  apply (wildcard_children_listed (Demo.world None None None "") ""
           default_candidates
           [mkPath "/" ["home"; "u"; "notes"]; mkPath "/" ["home"; "u"; "Syncthing"];
            mkPath "/" ["home"; "u"; "scratch"];
            mkPath "/" ["home"; "u"; "code"; "b"];
            mkPath "/" ["home"; "u"; "code"; ".git"];
            mkPath "/" ["home"; "u"; "code"; "a"];
            mkPath "/" ["home"; "u"; "code"; "README.md"]] ∅
           ["code/a"; "code/b"; "notes"] "~/code/*"
           (mkPath "/" ["home"; "u"; "code"]) "a").
  - reflexivity.
  - by vm_compute.
  - by vm_compute.
  - apply (bool_decide_unpack _). by vm_compute.
  - reflexivity.
  - reflexivity.
  - apply (bool_decide_unpack _). by vm_compute.
  - reflexivity.
  - reflexivity.
  - reflexivity.
  - apply (bool_decide_unpack _). by vm_compute.
Defined.

(** X12.  An empty line in the rule file names the current directory.  With
    the empty query that directory passes the filter, and it is a relative
    path: when the home directory is an absolute path (and the current
    directory is not excluded), [get_local_directories] raises [ValueError]
    instead of returning the other entries. *)
Theorem blank_rule_line_raises E text directories excludes :
  fs_file E (Spec.rule_file E) = Some text →
  "" ∈ Str.splitlines text →
  scan_lines E ([], ∅) (Str.splitlines text) = Ok (directories, excludes) →
  mkPath "" [] ∉ excludes →
  fs_is_dir E (mkPath "" []) = true →
  root (HOME E) ≠ "" →
  get_local_directories E "" = Raise ValueError.
Proof.
  intros Hfile Hblank Hscan Hex Hcwd Habs.
  rewrite (get_local_directories_eq E "" _ _ _ (read_candidates_file E text Hfile) Hscan).
  rewrite map_relative_outside_home; [done|].
  apply Exists_exists. exists (mkPath "" []). split.
  - apply list_elem_of_filter. split.
    + apply Is_true_true, valid_true. by rewrite Hcwd.
    + destruct (scan_lines_directories E _ _ _ _ _ Hscan) as [_ Hlines].
      specialize (Hlines "" Hblank). simpl in Hlines.
      by destruct Hlines as (p & [= <-] & Hp).
  - intros [Hroot _]. simpl in Hroot. by destruct Habs.
Qed.

Lemma blank_rule_line_raises_witness :
  get_local_directories
    (Scenario.world_cwd (Some Scenario.rc_blank_line) None None "") ""
  = Raise ValueError.
Proof.
  apply (blank_rule_line_raises
           (Scenario.world_cwd (Some Scenario.rc_blank_line) None None "")
           Scenario.rc_blank_line
           [mkPath "/" ["home"; "u"; "notes"]; mkPath "" [];
            mkPath "/" ["home"; "u"; "code"; "b"];
            mkPath "/" ["home"; "u"; "code"; ".git"];
            mkPath "/" ["home"; "u"; "code"; "a"];
            mkPath "/" ["home"; "u"; "code"; "README.md"]] ∅).
  - reflexivity.
  - apply (bool_decide_unpack _). by vm_compute.
  - by vm_compute.
  - apply (bool_decide_unpack _). by vm_compute.
  - reflexivity.
  - discriminate.
Defined.

(** ** Exclusion lines are scanned as directories too *)

Lemma split_on_cons sep s : ∃ w ws, Str.split_on sep s = w :: ws.
Proof.
  destruct s as [|c s]; simpl; [by eexists _, _|].
  destruct (Str.split_on sep s); [by eexists _, _|].
  destruct (ascii_dec c sep); by eexists _, _.
Qed.

(** The path of a text that starts with the exclusion marker is relative,
    its first component starts with the marker, and user expansion leaves it
    alone. *)
Lemma parse_bang E s :
  Str.startswith "!" s = true →
  root (Pathlib.parse s) = ""
  ∧ expanduser E (Pathlib.parse s) = Ok (Pathlib.parse s).
Proof.
  intros [s' ->]%startswith_iff. change ("!" +:+ s') with (String "!" s').
  generalize s'. clear s'. intros s.
  unfold Pathlib.parse.
  change (Pathlib.splitroot (String "!" s)) with ("", String "!" s).
  cbn [Str.split_on]. destruct (split_on_cons "/" s) as (w & ws & ->).
  destruct (ascii_dec "!" "/") as [[=]|_].
  rewrite filter_cons.
  assert (Pathlib.keep_part (String "!" w) = true) as Hkeep.
  { reflexivity. }
  rewrite decide_True by (by rewrite Hkeep). done.
Qed.

Lemma drop_last_bang line :
  Str.startswith "!" line = true → Str.endswith "*" line = true →
  Str.startswith "!" (Str.drop_last line) = true.
Proof.
  intros [s ->]%startswith_iff. change ("!" +:+ s) with (String "!" s).
  destruct s as [|d s]; [by vm_compute|done].
Qed.

(** X15.  A rule line that starts with the exclusion marker is not only an
    exclusion: its whole text, marker included, is scanned like any other
    line.  The paths this adds are relative ones, so with an absolute home
    directory none of them lies under it: such a line never yields an entry
    (should one of these paths pass the filter, the discovery raises). *)
Theorem exclusion_line_scanned_too E directories excludes line directories' excludes' :
  Str.startswith "!" line = true →
  scan_line E (directories, excludes) line = Ok (directories', excludes') →
  root (HOME E) ≠ "" →
  ∃ p added,
    expanduser E (Pathlib.parse (Str.drop1 line)) = Ok p
    ∧ excludes' = {[ p ]} ∪ excludes
    ∧ directories' = directories ++ added
    ∧ added = (if Str.endswith "*" line
               then glob_star E (Pathlib.parse (Str.drop_last line))
               else [Pathlib.parse line])
    ∧ Forall (λ d, root d = "" ∧ ¬ Spec.under_home E d) added.
Proof.
  intros Hbang Hscan Habs.
  apply scan_line_Ok in Hscan as [Hex (q & added & -> & Hadded)].
  rewrite Hbang in Hex. destruct Hex as (p & Hp & ->).
  exists p, added. split; [done|]. split; [done|]. split; [done|].
  assert (∀ d, root d = "" → root d = "" ∧ ¬ Spec.under_home E d) as Hrel.
  { intros d Hd. split; [done|]. intros [Hroot _]. rewrite Hd in Hroot. by destruct Habs. }
  destruct (Str.endswith "*" line) eqn:Hstar; destruct Hadded as [Hq ->].
  - destruct (parse_bang E (Str.drop_last line)) as [Hroot Hsame];
      [by apply drop_last_bang|].
    rewrite Hsame in Hq. injection Hq as <-. split; [done|].
    apply Forall_forall. intros d (n & -> & _)%list_elem_of_fmap. by apply Hrel.
  - destruct (parse_bang E line Hbang) as [Hroot Hsame].
    rewrite Hsame in Hq. injection Hq as <-. split; [done|].
    constructor; [by apply Hrel|constructor].
Qed.

Lemma exclusion_line_scanned_too_witness :
  ∃ added,
    [mkPath "" ["!~"; "code"; "b"]] = [] ++ added
    ∧ Forall (λ d, root d = "" ∧ ¬ Spec.under_home (Demo.world None None None "") d) added.
Proof.
  destruct (exclusion_line_scanned_too (Demo.world None None None "") [] ∅ "!~/code/b"
              [mkPath "" ["!~"; "code"; "b"]]
              ({[ mkPath "/" ["home"; "u"; "code"; "b"] ]} ∪ ∅))
    as (p & added & _ & _ & Hds & _ & Hrel).
  - reflexivity.
  - reflexivity.
  - discriminate.
  - by exists added.
Defined.

(** ** From a home-relative entry back to the directory *)

Lemma splitroot_relative c s :
  c ≠ "/"%char → Pathlib.splitroot (String c s) = ("", String c s).
Proof.
  intros Hc. destruct c as [[] [] [] [] [] [] [] []]; done.
Qed.

Lemma split_on_word x : Str.contains "/" x = false → Str.split_on "/" x = [x].
Proof.
  induction x as [|c x IH]; [done|]. intros [Hc Hx]%slash_free_cons.
  simpl. rewrite (IH Hx). by destruct (ascii_dec c "/").
Qed.

Lemma split_on_append x s :
  Str.contains "/" x = false →
  Str.split_on "/" (x +:+ "/" +:+ s) = x :: Str.split_on "/" s.
Proof.
  induction x as [|c x IH].
  - intros _. change ("" +:+ "/" +:+ s) with (String "/" s). simpl.
    destruct (split_on_cons "/" s) as (w & ws & ->). by destruct (ascii_dec "/" "/").
  - intros [Hc Hx]%slash_free_cons. rewrite append_cons. simpl. rewrite (IH Hx).
    by destruct (ascii_dec c "/").
Qed.

Lemma split_on_join l :
  Forall Spec.clean l → l ≠ [] → Str.split_on "/" (Str.join "/" l) = l.
Proof.
  induction 1 as [|x l (_ & _ & Hx) Hl IH]; [done|]. intros _.
  destruct l as [|y l]; [by apply split_on_word|].
  rewrite join_cons2, split_on_append by done. f_equal. by apply IH.
Qed.

Lemma filter_keep_clean l :
  Forall Spec.clean l → filter (λ x, Pathlib.keep_part x) l = l.
Proof.
  induction 1 as [|x l (Hne & Hdot & _) _ IH]; [done|].
  rewrite filter_cons, IH, decide_True; [done|].
  unfold Pathlib.keep_part. rewrite bool_decide_eq_false_2 by done. by destruct x.
Qed.

(** Writing clean components and reading them again gives them back. *)
Lemma parse_to_str_clean l :
  Forall Spec.clean l → Pathlib.parse (Pathlib.to_str (mkPath "" l)) = mkPath "" l.
Proof.
  intros Hl. destruct l as [|x l]; [done|].
  assert (Pathlib.to_str (mkPath "" (x :: l)) = Str.join "/" (x :: l)) as ->.
  { unfold Pathlib.to_str. simpl root. simpl parts. rewrite append_nil_l.
    apply Forall_cons in Hl as [(Hne & _) _].
    destruct x as [|c x]; [done|]. destruct l; [done|]. by rewrite join_cons2, append_cons. }
  unfold Pathlib.parse.
  assert (∃ c s, Str.join "/" (x :: l) = String c s ∧ c ≠ "/"%char) as (c & s & Hj & Hc).
  { pose proof Hl as Hl'. apply Forall_cons in Hl' as [(Hne & _ & Hx) _].
    destruct x as [|c x]; [done|]. apply slash_free_cons in Hx as [Hc _].
    destruct l; [by exists c, x|]. rewrite join_cons2, append_cons. by eexists _, _. }
  rewrite Hj, (splitroot_relative c s Hc), <-Hj.
  by rewrite split_on_join, filter_keep_clean.
Qed.

Lemma rejoin_clean E l :
  Forall Spec.clean l →
  HOME E // Pathlib.to_str (mkPath "" l) = mkPath (root (HOME E)) (parts (HOME E) ++ l).
Proof.
  intros Hl. unfold Pathlib.truediv. by rewrite parse_to_str_clean.
Qed.

(** X11.  The home-relative name round-trips: for a directory under the
    home directory whose components below it are clean names, [relative]
    returns a string that [main], joining it to the home directory again,
    turns back into the same path. *)
Theorem home_relative_round_trip E d :
  Spec.under_home E d →
  Forall Spec.clean (drop (length (parts (HOME E))) (parts d)) →
  ∃ entry, relative E d = Ok entry ∧ HOME E // entry = d.
Proof.
  intros Hhome Hclean. exists (Spec.home_relative E d).
  split; [by apply relative_under_home|].
  unfold Spec.home_relative. rewrite rejoin_clean by done.
  rewrite <-(under_home_parts E d Hhome). destruct Hhome as [<- _]. by destruct d.
Qed.

Lemma home_relative_round_trip_witness :
  ∃ entry,
    relative (Demo.world None None None "") (mkPath "/" ["home"; "u"; "code"; "a"])
    = Ok entry
    ∧ HOME (Demo.world None None None "") // entry = mkPath "/" ["home"; "u"; "code"; "a"].
Proof.
  apply (home_relative_round_trip (Demo.world None None None "")
           (mkPath "/" ["home"; "u"; "code"; "a"])).
  - apply (bool_decide_unpack _). by vm_compute.
  - repeat constructor; by vm_compute.
Defined.

(** X17.  In an environment whose directory entries and user homes are
    clean names, every entry [get_local_directories] returns leads [main]
    back to a directory that exists: joined to the home directory it is a
    scanned path that is a directory, not hidden, under the home directory,
    with a stem containing the query. *)
Theorem directory_entries_exist E query out entry :
  Spec.wf_env E →
  get_local_directories E query = Ok out →
  entry ∈ out →
  fs_is_dir E (HOME E // entry) = true
  ∧ Spec.hidden (HOME E // entry) = false
  ∧ Str.contains query (Pathlib.stem (HOME E // entry)) = true
  ∧ Spec.under_home E (HOME E // entry)
  ∧ relative E (HOME E // entry) = Ok entry.
Proof.
  intros Hwf (candidates & directories & excludes & _ & Hscan & Hhome & ->)
    %get_local_directories_Ok Hentry.
  apply elem_of_sorted, list_elem_of_fmap in Hentry as (d & -> & Hd).
  rewrite Forall_forall in Hhome. specialize (Hhome d Hd).
  apply list_elem_of_filter in Hd as [Hv%Is_true_true%valid_true Hd].
  destruct Hv as (Hdir & Hhid & Hq & _).
  pose proof (scan_lines_tidy E _ [] ∅ _ _ Hwf (Forall_nil_2 _) Hscan) as Htidy.
  rewrite Forall_forall in Htidy.
  assert (HOME E // Spec.home_relative E d = d) as ->.
  { unfold Spec.home_relative.
    rewrite rejoin_clean by (apply tidy_under_home_clean; [by apply Htidy|done]).
    rewrite <-(under_home_parts E d Hhome). destruct Hhome as [<- _]. by destruct d. }
  repeat split; try done; [apply Hhome..|by apply relative_under_home].
Qed.

Lemma directory_entries_exist_witness :
  fs_is_dir (Demo.world None None None "")
    (HOME (Demo.world None None None "") // "code/a") = true.
Proof.
  refine (proj1 (directory_entries_exist (Demo.world None None None "") ""
                   ["code/a"; "code/b"; "notes"] "code/a" _ _ _)).
  - split.
    + intros q n Hn. unfold Demo.world, Demo.listdir in Hn. simpl in Hn.
      destruct (decide _); [|by apply elem_of_nil in Hn].
      repeat (apply elem_of_cons in Hn as [->|Hn]; [by vm_compute|]).
      by apply elem_of_nil in Hn.
    + intros u h [=].
  - by vm_compute.
  - apply (bool_decide_unpack _). by vm_compute.
Defined.
